(** * pysar/geocode.py: configuration merge, direction guard, metadata
      rewriting and the batch loop

    A shallow embedding of [src/pysar/geocode.py].  Attribute dictionaries are
    finite maps from strings to Python values, the argparse [Namespace] is a
    record, raising and [sys.exit] are the constructors of [outcome], the
    filesystem is an abstract [World] that only [writefile.write] changes, and
    the calls that matter to the batch loop (resample engine, writer,
    warnings) are logged as a list of events.  Text sent to stdout by [print]
    is not modelled. *)

From stdpp Require Import base gmap strings list fin_maps pretty.
From Stdlib Require Import ZArith Ascii SpecFloat.

Local Open Scope Z_scope.
Set Warnings "-clear-no-such-hyp".

(** ** Outcomes of a Python call *)

Inductive exn :=
  | Exception (msg : string)
  | FileNotFoundError (msg : string)
  | ValueError
  | OverflowError
  | KeyError (key : string)
  | IndexError
  | AttributeError (name : string)
  | UnboundLocalError (name : string).

(** A call returns, raises, or leaves the interpreter through [sys.exit]. *)
Inductive outcome (A : Type) :=
  | Return (a : A)
  | Raise (e : exn)
  | SysExit (code : Z).
Arguments Return {A} a.
Arguments Raise {A} e.
Arguments SysExit {A} code.

Definition outcome_bind {A B} (f : A → outcome B) (m : outcome A) : outcome B :=
  match m with
  | Return a => f a
  | Raise e => Raise e
  | SysExit c => SysExit c
  end.

#[global] Instance outcome_ret : MRet outcome := λ A, @Return A.
#[global] Instance outcome_mbind : MBind outcome := λ A B, @outcome_bind A B.

Definition returns {A} (m : outcome A) : bool :=
  match m with Return _ => true | _ => false end.


(** [mapM] for [outcome], left to right as a list comprehension evaluates. *)
Fixpoint outcome_mapM {A B} (f : A → outcome B) (l : list A) : outcome (list B) :=
  match l with
  | [] => Return []
  | x :: l' => y ← f x; ys ← outcome_mapM f l'; Return (y :: ys)
  end.

(** ** Python and NumPy builtins on numbers

    [float(s)], [int(s)], [str(x)], [np.rint] and the float arithmetic are
    the interpreter's; the module is verified against any implementation of
    them.  [Binary64] below is an executable one. *)

Class Builtins := {
  float : Type;
  nan : float;                          (* np.nan *)
  isnan : float → bool;                 (* np.isnan *)
  float_of_str : string → outcome float;  (* float(s) *)
  float_of_int : Z → outcome float;     (* float(n) *)
  str_of_float : float → string;        (* str(x) *)
  int_of_float : float → outcome Z;     (* int(x) *)
  int_of_str : string → outcome Z;      (* int(s) *)
  fsub : float → float → float;         (* x - y *)
  fdiv : float → float → float;         (* x / y on NumPy scalars *)
  rint : float → float                  (* np.rint *)
}.

(** ** Strings: the [str] and [os.path] functions the module calls *)

Module PyStr.

Definition eqb_char (a b : ascii) : bool := bool_decide (a = b).

(** [s.startswith(c)] and [s.endswith(c)] for a one-character [c]. *)
Definition startswith_char (c : ascii) (s : string) : bool :=
  match s with
  | String a _ => eqb_char a c
  | EmptyString => false
  end.

Fixpoint endswith_char (c : ascii) (s : string) : bool :=
  match s with
  | EmptyString => false
  | String a EmptyString => eqb_char a c
  | String _ r => endswith_char c r
  end.

Fixpoint contains_char (c : ascii) (s : string) : bool :=
  match s with
  | EmptyString => false
  | String a r => eqb_char a c || contains_char c r
  end.

(** [s.split(c)] for a one-character separator. *)
Fixpoint split_go (c : ascii) (cur : string) (s : string) : list string :=
  match s with
  | EmptyString => [String.rev cur]
  | String a r =>
      if eqb_char a c then String.rev cur :: split_go c EmptyString r
      else split_go c (String a cur) r
  end.
Definition split (c : ascii) (s : string) : list string :=
  split_go c EmptyString s.

(** [s.lower()] on ASCII letters. *)
Definition lower_char (a : ascii) : ascii :=
  let n := nat_of_ascii a in
  if (65 <=? n)%nat && (n <=? 90)%nat then ascii_of_nat (n + 32) else a.
Fixpoint lower (s : string) : string :=
  match s with
  | EmptyString => EmptyString
  | String a r => String (lower_char a) (lower r)
  end.

(** [sub in s]. *)
Fixpoint contains (sub s : string) : bool :=
  String.prefix sub s ||
  match s with
  | EmptyString => false
  | String _ r => contains sub r
  end.

(** Truth value of a string and of an optional string ([None] is false). *)
Definition truthy (s : string) : bool := negb (bool_decide (s = "")).
Definition truthy_opt (o : option string) : bool :=
  match o with
  | Some s => truthy s
  | None => false
  end.

End PyStr.

Module OsPath.

(** [posixpath.basename]: what follows the last slash. *)
Fixpoint basename (p : string) : string :=
  match p with
  | EmptyString => EmptyString
  | String _ r => if PyStr.contains_char "/" p then basename r else p
  end.

(** [posixpath.join] of two components. *)
Definition join (a b : string) : string :=
  if PyStr.startswith_char "/" b then b
  else if negb (PyStr.truthy a) || PyStr.endswith_char "/" a then a +:+ b
  else a +:+ "/" +:+ b.

End OsPath.

(** ** The data of a run *)

Section Geocode.

Context `{B : Builtins}.

(** Values held by an attribute dictionary. *)
Inductive pyval :=
  | PStr (s : string)
  | PInt (z : Z)
  | PFloat (x : float).

Definition is_str (v : pyval) : bool :=
  match v with PStr _ => true | _ => false end.

(** [float(v)] and [int(v)] on such a value. *)
Definition py_float (v : pyval) : outcome float :=
  match v with
  | PStr s => float_of_str s
  | PInt z => float_of_int z
  | PFloat x => Return x
  end.

Definition py_int (v : pyval) : outcome Z :=
  match v with
  | PStr s => int_of_str s
  | PInt z => Return z
  | PFloat x => int_of_float x
  end.

(** The namespace built by [create_parser], in the order of its
    [add_argument] calls, with the two attributes the module adds later.
    [nprocs] is [None] until [run_resample] assigns it; [laloStep] is
    [None] both before it is assigned and when it is assigned [None]
    (its only reader, [run_resample], runs after [_check_inps] assigned
    it). *)
Record Namespace := {
  file : list string;
  dset : option string;
  radar2geo : bool;
  lookupFile : option string;
  templateFile : option string;
  SNWE : option (list float);
  latStep : option float;
  lonStep : option float;
  interpMethod : string;
  fillValue : float;
  updateMode : bool;
  outfile : option string;
  out_dir : option string;
  laloStep : option (list (option float));
  nprocs : option Z
}.

Definition set_file v (i : Namespace) : Namespace :=
  Build_Namespace v (dset i) (radar2geo i) (lookupFile i) (templateFile i)
    (SNWE i) (latStep i) (lonStep i) (interpMethod i) (fillValue i)
    (updateMode i) (outfile i) (out_dir i) (laloStep i) (nprocs i).
Definition set_lookupFile v (i : Namespace) : Namespace :=
  Build_Namespace (file i) (dset i) (radar2geo i) v (templateFile i)
    (SNWE i) (latStep i) (lonStep i) (interpMethod i) (fillValue i)
    (updateMode i) (outfile i) (out_dir i) (laloStep i) (nprocs i).
Definition set_SNWE v (i : Namespace) : Namespace :=
  Build_Namespace (file i) (dset i) (radar2geo i) (lookupFile i) (templateFile i)
    v (latStep i) (lonStep i) (interpMethod i) (fillValue i)
    (updateMode i) (outfile i) (out_dir i) (laloStep i) (nprocs i).
Definition set_latStep v (i : Namespace) : Namespace :=
  Build_Namespace (file i) (dset i) (radar2geo i) (lookupFile i) (templateFile i)
    (SNWE i) v (lonStep i) (interpMethod i) (fillValue i)
    (updateMode i) (outfile i) (out_dir i) (laloStep i) (nprocs i).
Definition set_lonStep v (i : Namespace) : Namespace :=
  Build_Namespace (file i) (dset i) (radar2geo i) (lookupFile i) (templateFile i)
    (SNWE i) (latStep i) v (interpMethod i) (fillValue i)
    (updateMode i) (outfile i) (out_dir i) (laloStep i) (nprocs i).
Definition set_interpMethod v (i : Namespace) : Namespace :=
  Build_Namespace (file i) (dset i) (radar2geo i) (lookupFile i) (templateFile i)
    (SNWE i) (latStep i) (lonStep i) v (fillValue i)
    (updateMode i) (outfile i) (out_dir i) (laloStep i) (nprocs i).
Definition set_fillValue v (i : Namespace) : Namespace :=
  Build_Namespace (file i) (dset i) (radar2geo i) (lookupFile i) (templateFile i)
    (SNWE i) (latStep i) (lonStep i) (interpMethod i) v
    (updateMode i) (outfile i) (out_dir i) (laloStep i) (nprocs i).
Definition set_outfile v (i : Namespace) : Namespace :=
  Build_Namespace (file i) (dset i) (radar2geo i) (lookupFile i) (templateFile i)
    (SNWE i) (latStep i) (lonStep i) (interpMethod i) (fillValue i)
    (updateMode i) v (out_dir i) (laloStep i) (nprocs i).
Definition set_laloStep v (i : Namespace) : Namespace :=
  Build_Namespace (file i) (dset i) (radar2geo i) (lookupFile i) (templateFile i)
    (SNWE i) (latStep i) (lonStep i) (interpMethod i) (fillValue i)
    (updateMode i) (outfile i) (out_dir i) v (nprocs i).
Definition set_nprocs v (i : Namespace) : Namespace :=
  Build_Namespace (file i) (dset i) (radar2geo i) (lookupFile i) (templateFile i)
    (SNWE i) (latStep i) (lonStep i) (interpMethod i) (fillValue i)
    (updateMode i) (outfile i) (out_dir i) (laloStep i) v.

(** [auto_output_filename(infile, inps)]. *)
Definition auto_output_filename (infile : string) (inps : Namespace) : string :=
  let derived :=
    let prefix := if radar2geo inps then "geo_" else "rdr_" in
    let outfile :=
      match dset inps with
      | Some d =>
          if PyStr.truthy d then prefix +:+ d +:+ ".h5"
          else prefix +:+ OsPath.basename infile
      | None => prefix +:+ OsPath.basename infile
      end in
    match out_dir inps with
    | Some d => if PyStr.truthy d then OsPath.join d outfile else outfile
    | None => outfile
    end in
  match outfile inps with
  | Some o =>
      if bool_decide (length (file inps) = 1%nat) && PyStr.truthy o then o
      else derived
  | None => derived
  end.

(** What [cmd_line_parse] returns for the given files and no option: the
    defaults of [create_parser]. *)
Definition cmd_line_defaults (files : list string) : Namespace :=
  {| file := files; dset := None; radar2geo := true; lookupFile := None;
     templateFile := None; SNWE := None; latStep := None; lonStep := None;
     interpMethod := "nearest"; fillValue := nan; updateMode := false;
     outfile := None; out_dir := None; laloStep := None; nprocs := None |}.

(** ** Collaborators *)

(** An attribute dictionary, as [readfile.read_attribute] returns it and
    [writefile.write] takes it. *)
Abbreviation AttributeMap := (gmap string pyval).

(** The geometry a [resample] object holds after
    [get_geometry_definition()]: [length], [width], [SNWE] (south, north,
    west, east), [laloStep] (latitude, longitude) and [file]. *)
Record ResampleObj := {
  res_length : Z;
  res_width : Z;
  res_SNWE : float * float * float * float;
  res_laloStep : float * float;
  res_file : string
}.

(** [SNWE[1]] and [SNWE[2]]. *)
Definition SNWE_1 (b : float * float * float * float) : float :=
  let '(_, n, _, _) := b in n.
Definition SNWE_2 (b : float * float * float * float) : float :=
  let '(_, _, w, _) := b in w.

(** What the module imports from [pysar.utils], [pysar.utils.readfile],
    [pysar.utils.writefile], [pysar.objects.resample], NumPy and
    [multiprocessing].  Readers see the current [World]; the writer alone
    changes it. *)
Class Collaborators := {
  World : Type;
  Array : Type;
  get_file_list : World → list string → list string;
  get_lookup_file : World → option string → option string;
  update_file : World → string → list (option string) → bool;
  radar2glob : World → Z → Z → string → AttributeMap → float * float;
  read_attribute : World → string → option string → AttributeMap;
  read_template : World → string → gmap string string;
  get_dataset_list : World → string → option string → list string;
  read : World → string → string → Array;
  write : World → list (string * Array) → string → AttributeMap →
          option string → World;
  get_geometry_definition :
    World → option string → string → option (list float) →
    option (list (option float)) → ResampleObj;
  engine_resample : ResampleObj → Array → string → float → Z → Array;
  ndim : Array → nat;
  moveaxis : Array → Z → Z → Array;
  cpu_count : Z
}.

Context `{C : Collaborators}.

(** ** [_check_inps] *)

(** [None in l]. *)
Definition has_None {A} (l : list (option A)) : bool :=
  existsb (λ o, match o with None => true | Some _ => false end) l.

(** The two statements [inps.laloStep = [inps.latStep, inps.lonStep]] and
    [if None in inps.laloStep: inps.laloStep = None]. *)
Definition assign_laloStep (inps : Namespace) : Namespace :=
  let inps := set_laloStep (Some [latStep inps; lonStep inps]) inps in
  match laloStep inps with
  | Some l => if has_None l then set_laloStep None inps else inps
  | None => inps
  end.

(** ['Y_FIRST' in atr.keys()]. *)
Definition has_key (k : string) (atr : AttributeMap) : bool :=
  bool_decide (is_Some (atr !! k)).

(** [_check_inps(inps)].  [tuple(inps.SNWE)] keeps the four numbers, so
    that statement changes nothing here. *)
Definition _check_inps (w : World) (inps : Namespace) : outcome Namespace :=
  let inps := set_file (get_file_list w (file inps)) inps in
  match file inps with
  | [] => Raise (Exception "ERROR: no input file found!")
  | file_0 :: _ =>
      let inps :=
        if bool_decide (1 < length (file inps))%nat then set_outfile None inps
        else inps in
      let atr := read_attribute w file_0 None in
      if has_key "Y_FIRST" atr && radar2geo inps then SysExit 0
      else if negb (has_key "Y_FIRST" atr) && negb (radar2geo inps) then SysExit 0
      else
        let inps := set_lookupFile (get_lookup_file w (lookupFile inps)) inps in
        if negb (PyStr.truthy_opt (lookupFile inps)) then
          Raise (FileNotFoundError "No lookup table found! Can not geocode without it.")
        else Return (assign_laloStep inps)
  end.

(** ** [read_template2inps] *)

(** Modelled from the spec: [ut.check_template_auto_value] is defined in
    pysar/utils, outside this file.  The spec says that a template value of
    the literal "auto" token is treated as unset; an unset value is [None],
    which the caller's [if value:] skips like the empty string. *)
Definition check_template_auto_value (template : gmap string string)
  : gmap string (option string) :=
  (λ v, if bool_decide (v = "auto") then None else Some v) <$> template.

Definition prefix : string := "pysar.geocode.".

(** [vars(inps).keys()] of a parsed namespace. *)
Definition namespace_keys : list string :=
  ["file"; "dset"; "radar2geo"; "lookupFile"; "templateFile"; "SNWE";
   "latStep"; "lonStep"; "interpMethod"; "fillValue"; "updateMode";
   "outfile"; "out_dir"].

(** The [if key == ... elif ...] chain under [if value:]. *)
Definition template_assign (key value : string) (inps : Namespace)
  : outcome Namespace :=
  if bool_decide (key = "SNWE") then
    xs ← outcome_mapM float_of_str (PyStr.split "," value);
    Return (set_SNWE (Some xs) inps)
  else if bool_decide (key ∈ ["latStep"; "lonStep"]) then
    x ← float_of_str value;
    Return (if bool_decide (key = "latStep") then set_latStep (Some x) inps
            else set_lonStep (Some x) inps)
  else if bool_decide (key ∈ ["interpMethod"]) then
    Return (set_interpMethod value inps)
  else if bool_decide (key = "fillValue") then
    if PyStr.contains "nan" (PyStr.lower value) then
      Return (set_fillValue nan inps)
    else
      x ← float_of_str value;
      Return (set_fillValue x inps)
  else Return inps.

(** [for key in key_list: ...]. *)
Fixpoint template_loop (template : gmap string (option string))
    (key_list : list string) (inps : Namespace) : outcome Namespace :=
  match key_list with
  | [] => Return inps
  | key :: rest =>
      match template !! (prefix +:+ key) with
      | None => Raise (KeyError (prefix +:+ key))
      | Some value =>
          inps ← (match value with
                  | Some v =>
                      if PyStr.truthy v then template_assign key v inps
                      else Return inps
                  | None => Return inps
                  end);
          template_loop template rest inps
      end
  end.

(** [read_template2inps(template_file, inps)], called with a namespace
    (a [Namespace] object is always true, so [if not inps] is not taken). *)
Definition read_template2inps (w : World) (template_file : string)
    (inps : Namespace) : outcome Namespace :=
  let template := read_template w template_file in
  let template := check_template_auto_value template in
  let key_list :=
    filter (λ i, is_Some (template !! (prefix +:+ i))) namespace_keys in
  inps ← template_loop template key_list inps;
  Return (assign_laloStep inps).

(** ** Metadata transforms *)

(** Events of a run: one per call of the resample engine, of
    [writefile.write] and of [warnings.warn]. *)
Inductive event :=
  | EvResample (infile dsName : string)
  | EvWrite (out_file : string) (dsNames : list string)
      (metadata : AttributeMap) (ref_file : option string)
  | EvWarn (msg : string).

(** [try: atr.pop(k1); atr.pop(k2); ... except: pass]: the pops run in
    order until one raises [KeyError]; what was removed before stays
    removed, what follows the failing pop is not run. *)
Fixpoint try_pops (ks : list string) (atr : AttributeMap) : AttributeMap :=
  match ks with
  | [] => atr
  | k :: ks' =>
      match atr !! k with
      | Some _ => try_pops ks' (delete k atr)
      | None => atr
      end
  end.

(** [atr[k]]. *)
Definition getitem (atr : AttributeMap) (k : string) : outcome pyval :=
  match atr !! k with
  | Some v => Return v
  | None => Raise (KeyError k)
  end.

Definition out_of_coverage : string :=
  "original reference pixel is out of .trans file's coverage. Continue.".

(** [metadata_radar2geo(atr_in, res_obj)]: the returned dictionary, or the
    exception, with the warnings issued. *)
Definition metadata_radar2geo (w : World) (atr_in : AttributeMap)
    (res_obj : ResampleObj) : outcome AttributeMap * list event :=
  let atr := atr_in in
  let atr := <["LENGTH" := PInt (res_length res_obj)]> atr in
  let atr := <["WIDTH" := PInt (res_width res_obj)]> atr in
  let atr := <["Y_FIRST" := PFloat (SNWE_1 (res_SNWE res_obj))]> atr in
  let atr := <["X_FIRST" := PFloat (SNWE_2 (res_SNWE res_obj))]> atr in
  let atr := <["Y_STEP" := PFloat (fst (res_laloStep res_obj))]> atr in
  let atr := <["X_STEP" := PFloat (snd (res_laloStep res_obj))]> atr in
  let atr := <["Y_UNIT" := PStr "degrees"]> atr in
  let atr := <["X_UNIT" := PStr "degrees"]> atr in
  if has_key "REF_Y" atr then
    match (y ← getitem atr "REF_Y" ≫= py_int;
           x ← getitem atr "REF_X" ≫= py_int;
           Return (y, x)) with
    | Return (y, x) =>
        let '(ref_lat, ref_lon) := radar2glob w y x (res_file res_obj) atr_in in
        if negb (isnan ref_lat) && negb (isnan ref_lon) then
          (y_first ← getitem atr "Y_FIRST" ≫= py_float;
           y_step ← getitem atr "Y_STEP" ≫= py_float;
           ref_y ← int_of_float (rint (fdiv (fsub ref_lat y_first) y_step));
           x_first ← getitem atr "X_FIRST" ≫= py_float;
           x_step ← getitem atr "X_STEP" ≫= py_float;
           ref_x ← int_of_float (rint (fdiv (fsub ref_lon x_first) x_step));
           let atr := <["REF_LAT" := PStr (str_of_float ref_lat)]> atr in
           let atr := <["REF_LON" := PStr (str_of_float ref_lon)]> atr in
           let atr := <["REF_Y" := PStr (pretty ref_y)]> atr in
           let atr := <["REF_X" := PStr (pretty ref_x)]> atr in
           Return atr, [])
        else
          let atr := try_pops ["REF_Y"; "REF_X"] atr in
          let atr := try_pops ["REF_LAT"; "REF_LON"] atr in
          (Return atr, [EvWarn out_of_coverage])
    | Raise e => (Raise e, [])
    | SysExit c => (SysExit c, [])
    end
  else (Return atr, []).

(** [metadata_geo2radar(atr_in, res_obj)]: every key is popped in a [try]
    of its own. *)
Definition geo_keys : list string :=
  ["Y_FIRST"; "X_FIRST"; "Y_STEP"; "X_STEP"; "Y_UNIT"; "X_UNIT";
   "REF_Y"; "REF_X"; "REF_LAT"; "REF_LON"].

Definition metadata_geo2radar (atr_in : AttributeMap) (res_obj : ResampleObj)
  : AttributeMap :=
  let atr := atr_in in
  let atr := <["LENGTH" := PInt (res_length res_obj)]> atr in
  let atr := <["WIDTH" := PInt (res_width res_obj)]> atr in
  foldl (λ atr i, try_pops [i] atr) atr geo_keys.

(** ** The batch loop *)

(** [resample_data(data, inps, res_obj)]: one call of the engine. *)
Definition resample_data (data : Array) (inps : Namespace)
    (res_obj : ResampleObj) : outcome Array :=
  let data := if bool_decide (ndim data = 3%nat) then moveaxis data 0 (-1) else data in
  match nprocs inps with
  | None => Raise (AttributeError "nprocs")
  | Some n =>
      let geo_data :=
        engine_resample res_obj data (interpMethod inps) (fillValue inps) n in
      Return (if bool_decide (ndim geo_data = 3%nat) then moveaxis geo_data (-1) 0
              else geo_data)
  end.

(** [d[k] = v] on a dictionary kept in insertion order. *)
Fixpoint dict_set {V} (k : string) (v : V) (d : list (string * V))
  : list (string * V) :=
  match d with
  | [] => [(k, v)]
  | (k', v') :: d' =>
      if bool_decide (k = k') then (k, v) :: d' else (k', v') :: dict_set k v d'
  end.

(** [for dsName in dsNames: ...], logging each engine call. *)
Fixpoint resample_datasets (w : World) (infile : string) (inps : Namespace)
    (res_obj : ResampleObj) (dsNames : list string)
    (dsResDict : list (string * Array)) (tr : list event)
  : outcome (list (string * Array)) * list event :=
  match dsNames with
  | [] => (Return dsResDict, tr)
  | dsName :: rest =>
      let data := read w infile dsName in
      match resample_data data inps res_obj with
      | Return res_data =>
          resample_datasets w infile inps res_obj rest
            (dict_set dsName res_data dsResDict)
            (tr ++ [EvResample infile dsName])
      | Raise e => (Raise e, tr)
      | SysExit c => (SysExit c, tr)
      end
  end.

(** [for infile in inps.file: ...] followed by [return outfile].  [prev]
    is the value of [outfile] left by the previous iteration. *)
Fixpoint resample_files (inps : Namespace) (res_obj : ResampleObj)
    (files : list string) (prev : option string) (w : World) (tr : list event)
  : outcome string * World * list event :=
  match files with
  | [] =>
      (match prev with
       | Some outfile => Return outfile
       | None => Raise (UnboundLocalError "outfile")
       end, w, tr)
  | infile :: rest =>
      let outfile := auto_output_filename infile inps in
      if updateMode inps
         && negb (update_file w outfile [Some infile; lookupFile inps])
      then (Return outfile, w, tr)
      else
        let dsNames := get_dataset_list w infile (dset inps) in
        match dsNames with
        | [] => (Raise ValueError, w, tr)     (* max([]) *)
        | _ :: _ =>
            match resample_datasets w infile inps res_obj dsNames [] tr with
            | (Return dsResDict, tr) =>
                let atr := read_attribute w infile (dset inps) in
                let '(atr, warns) :=
                  if radar2geo inps then metadata_radar2geo w atr res_obj
                  else (Return (metadata_geo2radar atr res_obj), []) in
                let tr := tr ++ warns in
                match atr with
                | Return atr =>
                    let single :=
                      bool_decide (length dsNames = 1%nat)
                      && negb (bool_decide (last dsNames = Some "timeseries")) in
                    let atr :=
                      if single then <["FILE_TYPE" := PStr (default "" (head dsNames))]> atr
                      else atr in
                    let ref_file := if single then None else Some infile in
                    let w := write w dsResDict outfile atr ref_file in
                    resample_files inps res_obj rest (Some outfile) w
                      (tr ++ [EvWrite outfile dsResDict.*1 atr ref_file])
                | Raise e => (Raise e, w, tr)
                | SysExit c => (SysExit c, w, tr)
                end
            | (Raise e, tr) => (Raise e, w, tr)
            | (SysExit c, tr) => (SysExit c, w, tr)
            end
        end
  end.

(** [run_resample(inps)]. *)
Definition run_resample (w : World) (inps : Namespace)
  : outcome string * World * list event :=
  match file inps with
  | [] => (Raise IndexError, w, [])       (* inps.file[0] *)
  | file_0 :: _ =>
      let res_obj :=
        get_geometry_definition w (lookupFile inps) file_0 (SNWE inps)
          (laloStep inps) in
      let inps := set_nprocs (Some cpu_count) inps in
      resample_files inps res_obj (file inps) None w []
  end.

(** [main], from the namespace [cmd_line_parse] returned. *)
Definition main (w : World) (inps : Namespace)
  : outcome unit * World * list event :=
  let checked :=
    inps ← (match templateFile inps with
            | Some t =>
                if PyStr.truthy t then read_template2inps w t inps
                else Return inps
            | None => Return inps
            end);
    _check_inps w inps in
  match checked with
  | Return inps =>
      let '(r, w, tr) := run_resample w inps in
      (_ ← r; Return (), w, tr)
  | Raise e => (Raise e, w, [])
  | SysExit c => (SysExit c, w, [])
  end.

End Geocode.

(** ** An executable instance of the builtins: IEEE binary64

    Doubles are [spec_float] at precision 53; subtraction and division are
    the Standard Library's correctly rounded ones.  [float(s)] and [int(s)]
    read plain decimal literals (sign, digits, one optional point, [nan],
    [inf]); the exponent notation, underscores and surrounding blanks that
    Python also reads are outside this instance.  [str(x)] is the shortest
    decimal that reads back as [x]. *)

Module Binary64.

Definition prec : Z := 53.
Definition emax : Z := 1024.

Definition is_nan (x : spec_float) : bool :=
  match x with S754_nan => true | _ => false end.

Definition same (x y : spec_float) : bool :=
  match SFcompare x y with Some Eq => true | _ => false end.

(** The double nearest to [num / den], ties to even. *)
Definition of_ratio (neg : bool) (num den : positive) : spec_float :=
  let '(q, e, l) := SFdiv_core_binary prec emax (Zpos num) 0 (Zpos den) 0 in
  binary_round_aux prec emax neg q e l.

(** The double nearest to [d * 10^k], for [0 <= d]. *)
Definition of_decimal (neg : bool) (d k : Z) : spec_float :=
  match d with
  | Zpos p =>
      if 0 <=? k then of_ratio neg (p * Z.to_pos (10 ^ k)) 1
      else of_ratio neg p (Z.to_pos (10 ^ (- k)))
  | _ => S754_zero neg
  end.

Definition digit (c : ascii) : option Z :=
  let n := Z.of_nat (nat_of_ascii c) in
  if (48 <=? n) && (n <=? 57) then Some (n - 48) else None.

Fixpoint digits (s : string) (acc : Z) : option Z :=
  match s with
  | EmptyString => Some acc
  | String c r =>
      match digit c with
      | Some d => digits r (10 * acc + d)
      | None => None
      end
  end.

Definition strip_sign (s : string) : bool * string :=
  match s with
  | String c r =>
      if PyStr.eqb_char c "-" then (true, r)
      else if PyStr.eqb_char c "+" then (false, r)
      else (false, s)
  | EmptyString => (false, s)
  end.

(** Digits and decimal exponent of an unsigned literal. *)
Definition unsigned_decimal (s : string) : option (Z * Z) :=
  match PyStr.split "." s with
  | [i] => if PyStr.truthy i then d ← digits i 0; Some (d, 0) else None
  | [i; f] =>
      if PyStr.truthy (i +:+ f) then
        d ← digits (i +:+ f) 0; Some (d, - Z.of_nat (String.length f))
      else None
  | _ => None
  end.

Definition of_str (s : string) : outcome spec_float :=
  let '(neg, u) := strip_sign (PyStr.lower s) in
  if bool_decide (u = "nan") then Return S754_nan
  else if bool_decide (u = "inf") || bool_decide (u = "infinity") then
    Return (S754_infinity neg)
  else
    match unsigned_decimal u with
    | Some (d, k) => Return (of_decimal neg d k)
    | None => Raise ValueError
    end.

Definition Z_of_str (s : string) : outcome Z :=
  let '(neg, u) := strip_sign s in
  if PyStr.truthy u then
    match digits u 0 with
    | Some d => Return (cond_Zopp neg d)
    | None => Raise ValueError
    end
  else Raise ValueError.

Definition of_Z (n : Z) : outcome spec_float :=
  match binary_normalize prec emax n 0 false with
  | S754_infinity _ => Raise OverflowError
  | x => Return x
  end.

(** [int(x)] truncates towards zero. *)
Definition to_Z (x : spec_float) : outcome Z :=
  match x with
  | S754_zero _ => Return 0
  | S754_infinity _ => Raise OverflowError
  | S754_nan => Raise ValueError
  | S754_finite s m e =>
      Return (cond_Zopp s (if 0 <=? e then Zpos m * 2 ^ e
                           else Zpos m / 2 ^ (- e)))
  end.

(** [num / den] rounded to an integer, ties to even. *)
Definition round_div (num den : Z) : Z :=
  let q := num / den in
  match 2 * (num mod den) ?= den with
  | Lt => q
  | Gt => q + 1
  | Eq => if Z.even q then q else q + 1
  end.

(** [np.rint]. *)
Definition round_int (x : spec_float) : spec_float :=
  match x with
  | S754_finite s m e =>
      if 0 <=? e then x
      else binary_normalize prec emax
             (cond_Zopp s (round_div (Zpos m) (2 ^ (- e)))) 0 s
  | _ => x
  end.

(** [10^k <= p / q]. *)
Definition pow10_le (k p q : Z) : bool :=
  if 0 <=? k then 10 ^ k * q <=? p else q <=? p * 10 ^ (- k).

Fixpoint log10_go (fuel : nat) (k p q : Z) : Z :=
  match fuel with
  | O => k
  | S fuel' => if pow10_le (k + 1) p q then log10_go fuel' (k + 1) p q else k
  end.

(** The decimal exponent of the leading digit of [p / q]: it lies between
    [- (log2 q + 1)] and [log2 p + 1]. *)
Definition floor_log10 (p q : Z) : Z :=
  log10_go (Z.to_nat (Z.log2 p + Z.log2 q + 2)) (- (Z.log2 q + 1)) p q.

(** The first [n]-digit decimal, [n = 1, 2, ...], that reads back as [x]. *)
Fixpoint shortest (fuel : nat) (n : Z) (x : spec_float) (p q k10 : Z) : Z * Z :=
  match fuel with
  | O => (0, 0)
  | S fuel' =>
      let k := k10 - (n - 1) in
      let d := if 0 <=? k then round_div p (q * 10 ^ k)
               else round_div (p * 10 ^ (- k)) q in
      if same (of_decimal false d k) x then (d, k)
      else shortest fuel' (n + 1) x p q k10
  end.

Fixpoint strip_zeros (fuel : nat) (d k : Z) : Z * Z :=
  match fuel with
  | O => (d, k)
  | S fuel' =>
      if (0 <? d) && (d mod 10 =? 0) then strip_zeros fuel' (d / 10) (k + 1)
      else (d, k)
  end.

Fixpoint zeros (n : nat) : string :=
  match n with O => "" | S n' => String "0" (zeros n') end.

(** The [repr] layout of the digits [ds] with the point after [decpt]
    of them. *)
Definition layout (ds : string) (decpt : Z) : string :=
  let n := Z.of_nat (String.length ds) in
  if (-4 <? decpt) && (decpt <=? 16) then
    if decpt <=? 0 then "0." +:+ zeros (Z.to_nat (- decpt)) +:+ ds
    else if n <=? decpt then ds +:+ zeros (Z.to_nat (decpt - n)) +:+ ".0"
    else String.substring 0 (Z.to_nat decpt) ds +:+ "." +:+
         String.substring (Z.to_nat decpt) (Z.to_nat (n - decpt)) ds
  else
    let e := decpt - 1 in
    let mant :=
      if n <=? 1 then ds
      else String.substring 0 1 ds +:+ "." +:+
           String.substring 1 (Z.to_nat (n - 1)) ds in
    mant +:+ "e" +:+ (if e <? 0 then "-" else "+") +:+
    (if Z.abs e <? 10 then "0" else "") +:+ pretty (Z.abs e).

Definition to_str (x : spec_float) : string :=
  match x with
  | S754_nan => "nan"
  | S754_infinity s => if s then "-inf" else "inf"
  | S754_zero s => if s then "-0.0" else "0.0"
  | S754_finite s m e =>
      let p := if 0 <=? e then Zpos m * 2 ^ e else Zpos m in
      let q := if 0 <=? e then 1 else 2 ^ (- e) in
      (* the exact expansion of [p / q] reads back as [x] and has at most
         [log2 p + log2 q + 2] digits; 17 suffice for a double *)
      let '(d, k) :=
        shortest (Z.to_nat (Z.log2 p + Z.log2 q + 2)) 1
          (S754_finite false m e) p q (floor_log10 p q) in
      let '(d, k) := strip_zeros (Z.to_nat (Z.log2 d + 1)) d k in
      let ds := pretty d in
      (if s then "-" else "") +:+ layout ds (Z.of_nat (String.length ds) + k)
  end.

#[global] Instance builtins : Builtins := {|
  float := spec_float;
  nan := S754_nan;
  isnan := is_nan;
  float_of_str := of_str;
  float_of_int := of_Z;
  str_of_float := to_str;
  int_of_float := to_Z;
  int_of_str := Z_of_str;
  fsub := SFsub prec emax;
  fdiv := SFdiv prec emax;
  rint := round_int
|}.

End Binary64.

(** ** An executable instance of the collaborators: files on a disk

    A small filesystem on which the module can be run: every file has a
    modification time, attributes and dataset names; arrays are named by
    the file and dataset they were read from.  The properties below are
    proved for every instance; this one supplies concrete runs. *)

Module Disk.

Record entry := {
  mtime : nat;
  attributes : gmap string (@pyval Binary64.builtins);
  datasets : list string
}.

Record world := {
  files : gmap string entry;
  templates : gmap string (gmap string string);
  coordinates : Z → Z → spec_float * spec_float;
  geometry : @ResampleObj Binary64.builtins;
  clock : nat
}.

Definition exists_file (w : world) (p : string) : bool :=
  bool_decide (is_Some (files w !! p)).

Definition lookup_names : list string := ["geometryGeo.h5"; "geometryRadar.h5"].

Definition find_lookup (w : world) (given : option string) : option string :=
  match given with
  | Some p => if exists_file w p then Some p else None
  | None => head (filter (λ p, is_Some (files w !! p)) lookup_names)
  end.

(** Modelled from the spec: [ut.update_file] is defined in pysar/utils.
    The spec's update mode skips a file when the output already exists and
    is newer than every dependency; [needs_update] is false exactly then. *)
Definition needs_update (w : world) (out : string)
    (deps : list (option string)) : bool :=
  match files w !! out with
  | None => true
  | Some o =>
      negb (forallb
              (λ d, match d ≫= (λ p, files w !! p) with
                    | Some e => bool_decide (mtime e < mtime o)%nat
                    | None => true
                    end) deps)
  end.

Definition attributes_of (w : world) (p : string)
  : gmap string (@pyval Binary64.builtins) :=
  match files w !! p with
  | Some e => attributes e
  | None => ∅
  end.

Definition datasets_of (w : world) (p : string) (dset : option string)
  : list string :=
  match dset with
  | Some d => [d]
  | None => match files w !! p with Some e => datasets e | None => [] end
  end.

Definition write_file (w : world) (data : list (string * (string * string)))
    (out : string) (atr : gmap string (@pyval Binary64.builtins))
    (ref_file : option string) : world :=
  {| files := <[out := {| mtime := clock w; attributes := atr;
                          datasets := data.*1 |}]> (files w);
     templates := templates w;
     coordinates := coordinates w;
     geometry := geometry w;
     clock := S (clock w) |}.

#[global] Instance collaborators : @Collaborators Binary64.builtins := {|
  World := world;
  Array := string * string;
  get_file_list := λ w l, filter (λ p, is_Some (files w !! p)) l;
  get_lookup_file := find_lookup;
  update_file := needs_update;
  radar2glob := λ w y x _ _, coordinates w y x;
  read_attribute := λ w p _, attributes_of w p;
  read_template := λ w p, default ∅ (templates w !! p);
  get_dataset_list := datasets_of;
  read := λ _ p d, (p, d);
  write := write_file;
  get_geometry_definition := λ w _ _ _ _, geometry w;
  engine_resample := λ _ a _ _ _, a;
  ndim := λ _, 2%nat;
  moveaxis := λ a _ _, a;
  cpu_count := 4
|}.

End Disk.

(** ** Vocabulary of the properties *)

Section Vocabulary.

Context `{B : Builtins}.

(** The grid keys [metadata_radar2geo] writes and the reference-pixel
    keys. *)
Definition grid_keys : list string :=
  ["LENGTH"; "WIDTH"; "Y_FIRST"; "X_FIRST"; "Y_STEP"; "X_STEP";
   "Y_UNIT"; "X_UNIT"].
Definition ref_keys : list string := ["REF_Y"; "REF_X"; "REF_LAT"; "REF_LON"].

(** The input dictionary with the eight grid keys of the geometry. *)
Definition geo_grid (atr_in : gmap string pyval) (res_obj : ResampleObj)
  : gmap string pyval :=
  <["X_UNIT" := PStr "degrees"]>
    (<["Y_UNIT" := PStr "degrees"]>
       (<["X_STEP" := PFloat (snd (res_laloStep res_obj))]>
          (<["Y_STEP" := PFloat (fst (res_laloStep res_obj))]>
             (<["X_FIRST" := PFloat (SNWE_2 (res_SNWE res_obj))]>
                (<["Y_FIRST" := PFloat (SNWE_1 (res_SNWE res_obj))]>
                   (<["WIDTH" := PInt (res_width res_obj)]>
                      (<["LENGTH" := PInt (res_length res_obj)]> atr_in))))))).

(** Every value of the dictionary is a string. *)
Definition all_str (atr : gmap string pyval) : Prop :=
  ∀ k v, atr !! k = Some v → is_str v.

(** The numbers the transforms take from the geometry, by key. *)
Definition geometry_number (res_obj : ResampleObj) (k : string) : option pyval :=
  if bool_decide (k = "LENGTH") then Some (PInt (res_length res_obj))
  else if bool_decide (k = "WIDTH") then Some (PInt (res_width res_obj))
  else if bool_decide (k = "Y_FIRST") then Some (PFloat (SNWE_1 (res_SNWE res_obj)))
  else if bool_decide (k = "X_FIRST") then Some (PFloat (SNWE_2 (res_SNWE res_obj)))
  else if bool_decide (k = "Y_STEP") then Some (PFloat (fst (res_laloStep res_obj)))
  else if bool_decide (k = "X_STEP") then Some (PFloat (snd (res_laloStep res_obj)))
  else None.

(** The value a template file gives for an option: present, not empty
    and not "auto". *)
Definition template_value (template : gmap string string) (key : string)
  : option string :=
  match template !! ("pysar.geocode." +:+ key) with
  | Some v => if bool_decide (v = "" ∨ v = "auto") then None else Some v
  | None => None
  end.

(** One turn of the loop of [read_template2inps] for a key of the
    namespace, whether or not the template has it. *)
Definition template_step (template : gmap string (option string))
    (key : string) (inps : Namespace) : outcome Namespace :=
  match template !! (prefix +:+ key) with
  | Some (Some v) =>
      if PyStr.truthy v then template_assign key v inps else Return inps
  | _ => Return inps
  end.

Fixpoint template_steps (template : gmap string (option string))
    (keys : list string) (inps : Namespace) : outcome Namespace :=
  match keys with
  | [] => Return inps
  | key :: rest =>
      inps ← template_step template key inps;
      template_steps template rest inps
  end.

(** Both-or-neither: [laloStep] holds the two steps when both are set and
    is absent otherwise. *)
Definition both_or_neither (inps : Namespace) : Prop :=
  match latStep inps, lonStep inps with
  | Some y, Some x => laloStep inps = Some [Some y; Some x]
  | _, _ => laloStep inps = None
  end.

End Vocabulary.

(** ** A disk to run the module on

    The files of the module's usage example: [velocity.h5] and
    [timeseries.h5] in radar coordinates, the lookup table
    [geometryRadar.h5], a template, and [geo_velocity.h5] left by an earlier
    run. *)

Module Demo.

Import Binary64.

Definition velocity_atr : gmap string (@pyval builtins) :=
  <["FILE_TYPE" := PStr "velocity"]>
    (<["LENGTH" := PStr "300"]>
       (<["WIDTH" := PStr "400"]>
          (<["REF_Y" := PStr "10"]> (<["REF_X" := PStr "20"]> ∅)))).

Definition timeseries_atr : gmap string (@pyval builtins) :=
  <["FILE_TYPE" := PStr "timeseries"]>
    (<["LENGTH" := PStr "300"]> (<["WIDTH" := PStr "400"]> ∅)).

Definition geo_velocity_atr : gmap string (@pyval builtins) :=
  <["Y_FIRST" := PStr "0.5"]> (<["X_FIRST" := PStr "-92.0"]> velocity_atr).

(** South, north, west, east and the steps of a 170 x 200 grid. *)
Definition res : @ResampleObj builtins :=
  {| res_length := 170;
     res_width := 200;
     res_SNWE := (of_decimal true 12 (-1), of_decimal false 5 (-1),
                  of_decimal true 92 0, of_decimal true 91 0);
     res_laloStep := (of_decimal true 1 (-2), of_decimal false 5 (-3));
     res_file := "geometryRadar.h5" |}.

Definition template : gmap string string :=
  <["pysar.geocode.SNWE" := "auto"]>
    (<["pysar.geocode.latStep" := "0.01"]>
       (<["pysar.geocode.lonStep" := "auto"]>
          (<["pysar.geocode.interpMethod" := "nearest"]>
             (<["pysar.geocode.fillValue" := ""]> ∅)))).

Definition file_entries : gmap string Disk.entry :=
  <["velocity.h5" := {| Disk.mtime := 1; Disk.attributes := velocity_atr;
                        Disk.datasets := ["velocity"] |}]>
    (<["timeseries.h5" := {| Disk.mtime := 2; Disk.attributes := timeseries_atr;
                             Disk.datasets := ["timeseries"] |}]>
       (<["geo_velocity.h5" := {| Disk.mtime := 5;
                                  Disk.attributes := geo_velocity_atr;
                                  Disk.datasets := ["velocity"] |}]>
          (<["geometryRadar.h5" := {| Disk.mtime := 0; Disk.attributes := ∅;
                                      Disk.datasets := ["height"] |}]> ∅))).

(** The lookup table places every pixel at 0.25 S, 91.2 W. *)
Definition disk : Disk.world :=
  {| Disk.files := file_entries;
     Disk.templates := {["pysarApp_template.txt" := template]};
     Disk.coordinates := λ _ _, (of_decimal true 25 (-2), of_decimal true 912 (-1));
     Disk.geometry := res;
     Disk.clock := 6 |}.

(** The same disk with a lookup table that covers no pixel. *)
Definition disk_no_coverage : Disk.world :=
  {| Disk.files := file_entries;
     Disk.templates := Disk.templates disk;
     Disk.coordinates := λ _ _, (S754_nan, S754_nan);
     Disk.geometry := res;
     Disk.clock := 6 |}.


(** [velocity_atr] with a longitude but no latitude of the reference
    pixel. *)
Definition velocity_atr_lon : gmap string (@pyval builtins) :=
  <["REF_LON" := PStr "-91.0"]> velocity_atr.

(** [geocode.py f1 f2 ...] with no option. *)
Definition cli (files : list string) : @Namespace builtins :=
  cmd_line_defaults files.

(** [geocode.py velocity.h5 -y 0.5 -i bilinear -t pysarApp_template.txt]. *)
Definition cli_template : @Namespace builtins :=
  {| file := ["velocity.h5"]; dset := None; radar2geo := true;
     lookupFile := None; templateFile := Some "pysarApp_template.txt";
     SNWE := None; latStep := Some (of_decimal false 5 (-1)); lonStep := None;
     interpMethod := "bilinear"; fillValue := S754_nan; updateMode := false;
     outfile := None; out_dir := None; laloStep := None; nprocs := None |}.

(** [geocode.py velocity.h5 -y 0.5]. *)
Definition cli_lat : @Namespace builtins :=
  set_latStep (Some (of_decimal false 5 (-1))) (cli ["velocity.h5"]).

(** [geocode.py velocity.h5 -y 0.01 -x 0.005]. *)
Definition cli_lat_lon : @Namespace builtins :=
  set_lonStep (Some (of_decimal false 5 (-3)))
    (set_latStep (Some (of_decimal false 1 (-2))) (cli ["velocity.h5"])).

(** [geocode.py velocity.h5 timeseries.h5 --update], and the request
    [_check_inps] makes of it. *)
Definition cli_update : @Namespace builtins :=
  {| file := ["velocity.h5"; "timeseries.h5"]; dset := None; radar2geo := true;
     lookupFile := None; templateFile := None;
     SNWE := None; latStep := None; lonStep := None;
     interpMethod := "nearest"; fillValue := S754_nan; updateMode := true;
     outfile := None; out_dir := None; laloStep := None; nprocs := None |}.

Definition checked_update : @Namespace builtins :=
  {| file := ["velocity.h5"; "timeseries.h5"]; dset := None; radar2geo := true;
     lookupFile := Some "geometryRadar.h5"; templateFile := None;
     SNWE := None; latStep := None; lonStep := None;
     interpMethod := "nearest"; fillValue := S754_nan; updateMode := true;
     outfile := None; out_dir := None; laloStep := None; nprocs := None |}.

(** [geocode.py geo_velocity.h5 --geo2radar] and
    [geocode.py velocity.h5 --geo2radar]. *)
Definition cli_geo2radar (files : list string) : @Namespace builtins :=
  {| file := files; dset := None; radar2geo := false;
     lookupFile := None; templateFile := None;
     SNWE := None; latStep := None; lonStep := None;
     interpMethod := "nearest"; fillValue := S754_nan; updateMode := false;
     outfile := None; out_dir := None; laloStep := None; nprocs := None |}.

(** [velocity_atr] geocoded on [disk]: pixel (10, 20) lies at 0.25 S,
    91.2 W, row 75 and column 160 of the new grid. *)
Definition relocated : gmap string (@pyval builtins) :=
  <["REF_X" := PStr "160"]>
    (<["REF_Y" := PStr "75"]>
       (<["REF_LON" := PStr "-91.2"]>
          (<["REF_LAT" := PStr "-0.25"]> (geo_grid velocity_atr res)))).

End Demo.

(** ** Vocabulary of the further properties *)

Section VocabularyMore.

Context `{B : Builtins}.

(** What an event of the batch loop may be, for a request: an engine call
    on one of its input files, a write to the output name derived for one
    of them, or a warning. *)
Definition event_of_request (inps : Namespace) (e : event) : Prop :=
  match e with
  | EvResample infile _ => infile ∈ file inps
  | EvWrite out_file _ _ _ =>
      ∃ infile, infile ∈ file inps
                ∧ out_file = auto_output_filename infile inps
  | EvWarn _ => True
  end.

Definition is_write (e : event) : bool :=
  match e with EvWrite _ _ _ _ => true | _ => false end.

End VocabularyMore.

(** ** More runs on the demo disk *)

Module Demo2.

Import Binary64.

(** A reference row without a column, and a row that is not a number. *)
Definition ref_y_only : gmap string (@pyval builtins) :=
  <["REF_Y" := PStr "10"]> ∅.
Definition ref_y_bad : gmap string (@pyval builtins) :=
  <["REF_Y" := PStr "ten"]> (<["REF_X" := PStr "20"]> ∅).

(** [geocode.py velocity.h5 timeseries.h5 missing.h5 -o out.h5]. *)
Definition cli_output : @Namespace builtins :=
  set_outfile (Some "out.h5")
    (Demo.cli ["velocity.h5"; "timeseries.h5"; "missing.h5"]).


(** A template that also names options the loop does not handle. *)
Definition template_more : gmap string string :=
  <["pysar.geocode.outfile" := "x.h5"]>
    (<["pysar.geocode.updateMode" := "yes"]>
       (<["pysar.geocode.file" := "other.h5"]> Demo.template)).

Definition disk_template_more : Disk.world :=
  {| Disk.files := Demo.file_entries;
     Disk.templates := {["more_template.txt" := template_more]};
     Disk.coordinates := Disk.coordinates Demo.disk;
     Disk.geometry := Demo.res;
     Disk.clock := 6 |}.

(** The demo disk with a file that holds no dataset. *)
Definition disk_empty_file : Disk.world :=
  {| Disk.files :=
       <["empty.h5" := {| Disk.mtime := 3; Disk.attributes := ∅;
                          Disk.datasets := [] |}]> Demo.file_entries;
     Disk.templates := Disk.templates Demo.disk;
     Disk.coordinates := Disk.coordinates Demo.disk;
     Disk.geometry := Demo.res;
     Disk.clock := 6 |}.

Definition checked_empty : @Namespace builtins :=
  set_lookupFile (Some "geometryRadar.h5") (Demo.cli ["empty.h5"]).

(** Two files with the same base name, and a run with [--dset height]. *)
Definition cli_two : @Namespace builtins :=
  Demo.cli ["a/velocity.h5"; "b/velocity.h5"].
Definition cli_dset : @Namespace builtins :=
  {| file := ["velocity.h5"; "timeseries.h5"]; dset := Some "height";
     radar2geo := true; lookupFile := None; templateFile := None;
     SNWE := None; latStep := None; lonStep := None;
     interpMethod := "nearest"; fillValue := S754_nan; updateMode := false;
     outfile := None; out_dir := None; laloStep := None; nprocs := None |}.

End Demo2.

(** * Properties *)

(** One step of the [outcome] monad. *)
Ltac run := cbn [mbind mret outcome_mbind outcome_ret outcome_bind].

Lemma outcome_bind_Return {A B} (m : outcome A) (f : A → outcome B) (b : B) :
  m ≫= f = Return b → ∃ a, m = Return a ∧ f a = Return b.
Proof. destruct m as [a| |]; run; [|done..]. intros H. by exists a. Qed.

Lemma pair_Return_inv {A E} (m : outcome A) (l l' : E) (a : A) :
  (m, l) = (Return a, l') → m = Return a ∧ l = l'.
Proof. by intros [= -> ->]. Qed.

(** A string that differs from every element of a list written out. *)
Ltac not_in_list :=
  let H := fresh in
  intros H;
  repeat (apply elem_of_cons in H as [H | H]; [discriminate H|]);
  exact (proj1 (elem_of_nil _) H).

(** Membership in a list written out. *)
Ltac in_list :=
  rewrite ?elem_of_cons, ?elem_of_nil in *; naive_solver.

(** ** Output names *)

Section OutputNames.

Context `{B : Builtins}.

Lemma join_under (d name : string) :
  PyStr.startswith_char "/" name = false →
  d ≠ "" →
  OsPath.join d name =
    if PyStr.endswith_char "/" d then d +:+ name else d +:+ "/" +:+ name.
Proof.
  intros Hn Hd. unfold OsPath.join. rewrite Hn.
  unfold PyStr.truthy. rewrite bool_decide_eq_false_2 by done. simpl.
  by destruct (PyStr.endswith_char "/" d).
Qed.

(** C9 (amended): with [--output] given (non-empty) and exactly one input
    file the explicit path is used; otherwise the name is the prefix
    "geo_" (RadarToGeo) or "rdr_" (GeoToRadar) followed by the dataset name
    and the extension ".h5" when [--dset] is given (non-empty), else by the
    input file's base name, and it is placed under [--outdir] when that is
    given (non-empty). *)
Theorem auto_output_filename_derivation (infile : string) (inps : Namespace) :
  let prefix := if radar2geo inps then "geo_" else "rdr_" in
  let name :=
    match dset inps with
    | Some d => if bool_decide (d = "") then prefix +:+ OsPath.basename infile
                else prefix +:+ d +:+ ".h5"
    | None => prefix +:+ OsPath.basename infile
    end in
  (∀ o, outfile inps = Some o → o ≠ "" → length (file inps) = 1%nat →
        auto_output_filename infile inps = o)
  ∧ (outfile inps = None ∨ outfile inps = Some "" ∨ length (file inps) ≠ 1%nat →
     auto_output_filename infile inps =
       match out_dir inps with
       | None => name
       | Some d =>
           if bool_decide (d = "") then name
           else if PyStr.endswith_char "/" d then d +:+ name
           else d +:+ "/" +:+ name
       end).
Proof.
  intros prefix name.
  assert (Hname : PyStr.startswith_char "/" name = false).
  { subst name prefix.
    destruct (dset inps) as [d|], (radar2geo inps);
      try case_bool_decide; reflexivity. }
  split.
  - intros o Ho Hne Hlen. unfold auto_output_filename. rewrite Ho.
    rewrite bool_decide_eq_true_2 by done.
    unfold PyStr.truthy. by rewrite bool_decide_eq_false_2.
  - intros Hcase. unfold auto_output_filename. fold prefix.
    replace (match dset inps with
             | Some d =>
                 if PyStr.truthy d then prefix +:+ d +:+ ".h5"
                 else prefix +:+ OsPath.basename infile
             | None => prefix +:+ OsPath.basename infile
             end) with name
      by (subst name; unfold PyStr.truthy;
          destruct (dset inps); [by case_bool_decide | done]).
    replace (match out_dir inps with
             | Some d => if PyStr.truthy d then OsPath.join d name else name
             | None => name
             end)
      with (match out_dir inps with
            | None => name
            | Some d =>
                if bool_decide (d = "") then name
                else if PyStr.endswith_char "/" d then d +:+ name
                else d +:+ "/" +:+ name
            end).
    + destruct Hcase as [-> | [-> | Hlen]]; [done | | ].
      * by rewrite andb_false_r.
      * destruct (outfile inps); [|done].
        by rewrite bool_decide_eq_false_2.
    + destruct (out_dir inps) as [d|]; [|done].
      unfold PyStr.truthy. case_bool_decide; simpl; [done|].
      by rewrite join_under.
Qed.

End OutputNames.

(** A run of the derivation: one input, [--output out.h5]; and two inputs,
    [--dset height --outdir GEOCODE]. *)
Lemma auto_output_filename_derivation_witness :
  auto_output_filename "velocity.h5"
    (set_outfile (Some "out.h5") (@cmd_line_defaults Binary64.builtins ["velocity.h5"]))
    = "out.h5"
  ∧ auto_output_filename "a/velocity.h5"
      {| file := ["a/velocity.h5"; "timeseries.h5"]; dset := Some "height";
         radar2geo := true; lookupFile := None; templateFile := None;
         SNWE := None; latStep := None; lonStep := None;
         interpMethod := "nearest"; fillValue := @nan Binary64.builtins;
         updateMode := false; outfile := Some "out.h5"; out_dir := Some "GEOCODE";
         laloStep := None; nprocs := None |}
    = "GEOCODE/geo_height.h5".
Proof.
  split.
  - apply (auto_output_filename_derivation "velocity.h5"
             (set_outfile (Some "out.h5") (cmd_line_defaults ["velocity.h5"])));
      [reflexivity | discriminate | reflexivity].
  - apply (auto_output_filename_derivation "a/velocity.h5"
             {| file := ["a/velocity.h5"; "timeseries.h5"]; dset := Some "height";
                radar2geo := true; lookupFile := None; templateFile := None;
                SNWE := None; latStep := None; lonStep := None;
                interpMethod := "nearest"; fillValue := @nan Binary64.builtins;
                updateMode := false; outfile := Some "out.h5";
                out_dir := Some "GEOCODE"; laloStep := None; nprocs := None |}).
    right; right. simpl. lia.
Defined.

(** C9 as stated fails: with [--dset height] the name is "geo_height.h5",
    not the prefix followed by the dataset name alone. *)
Lemma auto_output_filename_dset_counterexample :
  ¬ (∀ (infile : string) (inps : @Namespace Binary64.builtins) (d : string),
       dset inps = Some d → outfile inps = None → out_dir inps = None →
       auto_output_filename infile inps =
         (if radar2geo inps then "geo_" else "rdr_") +:+ d).
Proof.
  intros H.
  specialize (H "geometryRadar.h5"
    {| file := ["geometryRadar.h5"]; dset := Some "height";
       radar2geo := true; lookupFile := None; templateFile := None;
       SNWE := None; latStep := None; lonStep := None;
       interpMethod := "nearest"; fillValue := @nan Binary64.builtins;
       updateMode := false; outfile := None; out_dir := None;
       laloStep := None; nprocs := None |} "height" eq_refl eq_refl eq_refl).
  vm_compute in H. discriminate H.
Qed.

(** ** Metadata transforms *)

Section Metadata.

Context `{B : Builtins} `{C : @Collaborators B}.

Implicit Types (atr : gmap string pyval) (res_obj : ResampleObj) (k : string).

(** A [pop] in a [try] of its own removes the key if it is there. *)
Lemma try_pops_single k atr : try_pops [k] atr = delete k atr.
Proof.
  simpl. destruct (atr !! k) eqn:Hk; [done|].
  symmetry. by apply delete_id.
Qed.

(** Two pops in one [try]: the second key goes only if the first was there. *)
Lemma try_pops_pair k1 k2 atr :
  try_pops [k1; k2] atr =
    if has_key k1 atr then delete k2 (delete k1 atr) else atr.
Proof.
  unfold has_key. simpl. destruct (atr !! k1) eqn:H1.
  - rewrite bool_decide_eq_true_2 by eauto.
    destruct (delete k1 atr !! k2) eqn:H2; [done|].
    symmetry. by apply delete_id.
  - rewrite bool_decide_eq_false_2; [done|]. by intros [? ?].
Qed.

Lemma lookup_foldl_try_pops (ks : list string) atr k :
  foldl (λ atr i, try_pops [i] atr) atr ks !! k =
    if bool_decide (k ∈ ks) then None else atr !! k.
Proof.
  revert atr. induction ks as [|k0 ks IH]; intros atr; cbn [foldl].
  - by rewrite bool_decide_eq_false_2 by in_list.
  - rewrite IH, try_pops_single.
    destruct (decide (k ∈ ks)) as [Hin|Hin].
    + by rewrite !bool_decide_eq_true_2 by in_list.
    + rewrite (bool_decide_eq_false_2 (k ∈ ks)) by done.
      destruct (decide (k0 = k)) as [->|Hne].
      * rewrite lookup_delete_eq. by rewrite bool_decide_eq_true_2 by in_list.
      * rewrite lookup_delete_ne by done.
        rewrite bool_decide_eq_false_2; [done|].
        rewrite elem_of_cons. naive_solver.
Qed.

(** What [metadata_geo2radar] holds under every key. *)
Lemma lookup_metadata_geo2radar atr res_obj k :
  metadata_geo2radar atr res_obj !! k =
    if bool_decide (k ∈ geo_keys) then None
    else if bool_decide (k = "WIDTH") then Some (PInt (res_width res_obj))
    else if bool_decide (k = "LENGTH") then Some (PInt (res_length res_obj))
    else atr !! k.
Proof.
  unfold metadata_geo2radar. rewrite lookup_foldl_try_pops.
  case_bool_decide; [done|].
  repeat case_bool_decide; subst; by simplify_map_eq.
Qed.

(** C7: GeoToRadar is idempotent for every input dictionary; its output
    has none of the ten geo keys (popping an absent key is not an error)
    and LENGTH/WIDTH are the geometry's grid size. *)
Theorem metadata_geo2radar_idempotent atr res_obj :
  metadata_geo2radar (metadata_geo2radar atr res_obj) res_obj
    = metadata_geo2radar atr res_obj
  ∧ (∀ k, k ∈ geo_keys → metadata_geo2radar atr res_obj !! k = None)
  ∧ metadata_geo2radar atr res_obj !! "LENGTH" = Some (PInt (res_length res_obj))
  ∧ metadata_geo2radar atr res_obj !! "WIDTH" = Some (PInt (res_width res_obj)).
Proof.
  split_and!.
  - apply map_eq. intros k. rewrite !lookup_metadata_geo2radar.
    by repeat case_bool_decide.
  - intros k Hk. rewrite lookup_metadata_geo2radar.
    by rewrite bool_decide_eq_true_2.
  - by rewrite lookup_metadata_geo2radar.
  - by rewrite lookup_metadata_geo2radar.
Qed.

(** *** RadarToGeo *)

Lemma geo_grid_other atr res_obj k :
  k ∉ grid_keys → geo_grid atr res_obj !! k = atr !! k.
Proof.
  intros Hk. unfold geo_grid, grid_keys in *.
  rewrite !lookup_insert_ne; [done|..]; intros <-; apply Hk; in_list.
Qed.

Lemma geo_grid_written atr res_obj :
  geo_grid atr res_obj !! "LENGTH" = Some (PInt (res_length res_obj))
  ∧ geo_grid atr res_obj !! "WIDTH" = Some (PInt (res_width res_obj))
  ∧ geo_grid atr res_obj !! "Y_FIRST" = Some (PFloat (SNWE_1 (res_SNWE res_obj)))
  ∧ geo_grid atr res_obj !! "X_FIRST" = Some (PFloat (SNWE_2 (res_SNWE res_obj)))
  ∧ geo_grid atr res_obj !! "Y_STEP" = Some (PFloat (fst (res_laloStep res_obj)))
  ∧ geo_grid atr res_obj !! "X_STEP" = Some (PFloat (snd (res_laloStep res_obj)))
  ∧ geo_grid atr res_obj !! "Y_UNIT" = Some (PStr "degrees")
  ∧ geo_grid atr res_obj !! "X_UNIT" = Some (PStr "degrees").
Proof. unfold geo_grid. split_and!; by simplify_map_eq. Qed.

(** The three ways [metadata_radar2geo] returns. *)
Lemma metadata_radar2geo_no_ref w atr res_obj :
  atr !! "REF_Y" = None →
  metadata_radar2geo w atr res_obj = (Return (geo_grid atr res_obj), []).
Proof.
  intros H. unfold metadata_radar2geo. fold (geo_grid atr res_obj).
  unfold has_key. rewrite geo_grid_other by (unfold grid_keys; in_list).
  rewrite H. rewrite bool_decide_eq_false_2; [done|]. by intros [? ?].
Qed.

(** The dictionary after a relocation and after a reference pixel out
    of coverage. *)
Lemma metadata_radar2geo_eval w atr res_obj v1 v2 y x :
  atr !! "REF_Y" = Some v1 → py_int v1 = Return y →
  atr !! "REF_X" = Some v2 → py_int v2 = Return x →
  metadata_radar2geo w atr res_obj =
    let ref_lat := (radar2glob w y x (res_file res_obj) atr).1 in
    let ref_lon := (radar2glob w y x (res_file res_obj) atr).2 in
    if negb (isnan ref_lat) && negb (isnan ref_lon) then
      (ref_y ← int_of_float
                 (rint (fdiv (fsub ref_lat (SNWE_1 (res_SNWE res_obj)))
                          (fst (res_laloStep res_obj))));
       ref_x ← int_of_float
                 (rint (fdiv (fsub ref_lon (SNWE_2 (res_SNWE res_obj)))
                          (snd (res_laloStep res_obj))));
       Return (<["REF_X" := PStr (pretty ref_x)]>
                 (<["REF_Y" := PStr (pretty ref_y)]>
                    (<["REF_LON" := PStr (str_of_float ref_lon)]>
                       (<["REF_LAT" := PStr (str_of_float ref_lat)]>
                          (geo_grid atr res_obj))))), [])
    else
      (Return (try_pops ["REF_LAT"; "REF_LON"]
                 (try_pops ["REF_Y"; "REF_X"] (geo_grid atr res_obj))),
       [EvWarn out_of_coverage]).
Proof.
  intros H1 Hy H2 Hx. unfold metadata_radar2geo. fold (geo_grid atr res_obj).
  destruct (geo_grid_written atr res_obj)
    as (_ & _ & Hyf & Hxf & Hys & Hxs & _ & _).
  unfold has_key, getitem.
  rewrite !(geo_grid_other atr res_obj "REF_Y"),
          !(geo_grid_other atr res_obj "REF_X") by (unfold grid_keys; in_list).
  rewrite H1, H2, Hyf, Hxf, Hys, Hxs.
  rewrite bool_decide_eq_true_2 by eauto.
  run. rewrite Hy. run. rewrite Hx. run. cbn [py_float]. run.
  destruct (radar2glob w y x (res_file res_obj) atr) as [ref_lat ref_lon].
  cbn [fst snd].
  by destruct (negb (isnan ref_lat) && negb (isnan ref_lon)).
Qed.

(** Whenever the transform returns, it returned in one of these ways. *)
Lemma metadata_radar2geo_inv w atr res_obj atr' warns :
  metadata_radar2geo w atr res_obj = (Return atr', warns) →
  (atr !! "REF_Y" = None ∧ atr' = geo_grid atr res_obj ∧ warns = [])
  ∨ ∃ v1 v2 y x,
      atr !! "REF_Y" = Some v1 ∧ py_int v1 = Return y
      ∧ atr !! "REF_X" = Some v2 ∧ py_int v2 = Return x.
Proof.
  intros Hrun.
  destruct (atr !! "REF_Y") as [v1|] eqn:H1.
  2:{ left. rewrite metadata_radar2geo_no_ref in Hrun by done.
      by simplify_eq. }
  right. revert Hrun. unfold metadata_radar2geo. fold (geo_grid atr res_obj).
  unfold has_key, getitem.
  rewrite !(geo_grid_other atr res_obj "REF_Y"),
          !(geo_grid_other atr res_obj "REF_X") by (unfold grid_keys; in_list).
  rewrite H1. rewrite bool_decide_eq_true_2 by eauto.
  run.
  destruct (py_int v1) as [y| |] eqn:Hy; run; [|done..].
  destruct (atr !! "REF_X") as [v2|] eqn:H2; run; [|done].
  destruct (py_int v2) as [x| |] eqn:Hx; run; [|done..].
  intros _. by exists v1, v2, y, x.
Qed.

Lemma lookup_try_pops_other (ks : list string) atr k :
  k ∉ ks → try_pops ks atr !! k = atr !! k.
Proof.
  revert atr. induction ks as [|k0 ks IH]; intros atr Hk; [done|].
  cbn [try_pops]. destruct (atr !! k0); [|done].
  rewrite IH by in_list. apply lookup_delete_ne. in_list.
Qed.

Lemma lookup_try_pops_Some (ks : list string) atr k v :
  try_pops ks atr !! k = Some v → atr !! k = Some v.
Proof.
  revert atr. induction ks as [|k0 ks IH]; intros atr; [done|].
  cbn [try_pops]. destruct (atr !! k0); [|done].
  intros H%IH. by apply lookup_delete_Some in H as [_ ?].
Qed.

(** A dictionary that agrees with [geo_grid] outside the reference-pixel
    keys has the eight grid keys of the geometry and the other input
    keys. *)
Lemma grid_of_agreement atr res_obj atr' :
  (∀ k, k ∉ ref_keys → atr' !! k = geo_grid atr res_obj !! k) →
  atr' !! "LENGTH" = Some (PInt (res_length res_obj))
  ∧ atr' !! "WIDTH" = Some (PInt (res_width res_obj))
  ∧ atr' !! "Y_FIRST" = Some (PFloat (SNWE_1 (res_SNWE res_obj)))
  ∧ atr' !! "X_FIRST" = Some (PFloat (SNWE_2 (res_SNWE res_obj)))
  ∧ atr' !! "Y_STEP" = Some (PFloat (fst (res_laloStep res_obj)))
  ∧ atr' !! "X_STEP" = Some (PFloat (snd (res_laloStep res_obj)))
  ∧ atr' !! "Y_UNIT" = Some (PStr "degrees")
  ∧ atr' !! "X_UNIT" = Some (PStr "degrees")
  ∧ (∀ k, k ∉ grid_keys → k ∉ ref_keys → atr' !! k = atr !! k).
Proof.
  intros Hagree.
  destruct (geo_grid_written atr res_obj)
    as (H1 & H2 & H3 & H4 & H5 & H6 & H7 & H8).
  split_and!;
    try (rewrite Hagree by (unfold ref_keys; in_list); assumption).
  intros k Hg Hr. rewrite Hagree by done. by apply geo_grid_other.
Qed.

(** C6: the RadarToGeo transform copies the input keys, overwrites
    LENGTH/WIDTH with the geometry's grid size, sets Y_FIRST/X_FIRST to the
    N and W components of the bounding box, Y_STEP/X_STEP to the grid step
    and Y_UNIT/X_UNIT to "degrees"; when the reference pixel is relocated,
    its new index on each axis is [int(rint((value - origin) / step))] with
    the origin and step of the new grid. *)
Theorem metadata_radar2geo_grid w atr res_obj atr' warns :
  metadata_radar2geo w atr res_obj = (Return atr', warns) →
  atr' !! "LENGTH" = Some (PInt (res_length res_obj))
  ∧ atr' !! "WIDTH" = Some (PInt (res_width res_obj))
  ∧ atr' !! "Y_FIRST" = Some (PFloat (SNWE_1 (res_SNWE res_obj)))
  ∧ atr' !! "X_FIRST" = Some (PFloat (SNWE_2 (res_SNWE res_obj)))
  ∧ atr' !! "Y_STEP" = Some (PFloat (fst (res_laloStep res_obj)))
  ∧ atr' !! "X_STEP" = Some (PFloat (snd (res_laloStep res_obj)))
  ∧ atr' !! "Y_UNIT" = Some (PStr "degrees")
  ∧ atr' !! "X_UNIT" = Some (PStr "degrees")
  ∧ (∀ k, k ∉ grid_keys → k ∉ ref_keys → atr' !! k = atr !! k)
  ∧ (atr !! "REF_Y" = None → ∀ k, k ∉ grid_keys → atr' !! k = atr !! k)
  ∧ (∀ v1 v2 y x ref_lat ref_lon,
       atr !! "REF_Y" = Some v1 → py_int v1 = Return y →
       atr !! "REF_X" = Some v2 → py_int v2 = Return x →
       radar2glob w y x (res_file res_obj) atr = (ref_lat, ref_lon) →
       isnan ref_lat = false → isnan ref_lon = false →
       ∃ ref_y ref_x,
         int_of_float (rint (fdiv (fsub ref_lat (SNWE_1 (res_SNWE res_obj)))
                               (fst (res_laloStep res_obj)))) = Return ref_y
         ∧ int_of_float (rint (fdiv (fsub ref_lon (SNWE_2 (res_SNWE res_obj)))
                                 (snd (res_laloStep res_obj)))) = Return ref_x
         ∧ atr' !! "REF_Y" = Some (PStr (pretty ref_y))
         ∧ atr' !! "REF_X" = Some (PStr (pretty ref_x))
         ∧ atr' !! "REF_LAT" = Some (PStr (str_of_float ref_lat))
         ∧ atr' !! "REF_LON" = Some (PStr (str_of_float ref_lon))).
Proof.
  intros Hrun.
  assert (Hagree : ∀ k, k ∉ ref_keys → atr' !! k = geo_grid atr res_obj !! k).
  { destruct (metadata_radar2geo_inv _ _ _ _ _ Hrun)
      as [(_ & -> & _) | (v1 & v2 & y & x & H1 & Hy & H2 & Hx)]; [done|].
    rewrite (metadata_radar2geo_eval _ _ _ _ _ _ _ H1 Hy H2 Hx) in Hrun.
    lazy zeta in Hrun. intros k Hk. revert Hrun.
    destruct (negb _ && negb _); intros [Hrun _]%pair_Return_inv.
    - apply outcome_bind_Return in Hrun as (ref_y & _ & Hrun).
      apply outcome_bind_Return in Hrun as (ref_x & _ & Hrun).
      simplify_eq. unfold ref_keys in Hk.
      rewrite !lookup_insert_ne; [done|..]; intros <-; apply Hk; in_list.
    - assert (atr' = try_pops ["REF_LAT"; "REF_LON"]
                       (try_pops ["REF_Y"; "REF_X"] (geo_grid atr res_obj)))
        as -> by congruence.
      unfold ref_keys in Hk.
      rewrite !lookup_try_pops_other; [done|..]; in_list. }
  pose proof (grid_of_agreement _ _ _ Hagree) as Hgrid.
  repeat (split; [apply Hgrid|]). split.
  - intros Hnone.
    rewrite metadata_radar2geo_no_ref in Hrun by done. simplify_eq.
    intros k Hk. by apply geo_grid_other.
  - intros v1 v2 y x ref_lat ref_lon H1 Hy H2 Hx Hglob Hlat Hlon.
    rewrite (metadata_radar2geo_eval _ _ _ _ _ _ _ H1 Hy H2 Hx) in Hrun.
    rewrite Hglob in Hrun. cbn [fst snd] in Hrun. lazy zeta in Hrun.
    rewrite Hlat, Hlon in Hrun. cbn [negb andb] in Hrun.
    apply pair_Return_inv in Hrun as [Hrun _].
    apply outcome_bind_Return in Hrun as (ref_y & Hry & Hrun).
    apply outcome_bind_Return in Hrun as (ref_x & Hrx & Hrun).
    simplify_eq. exists ref_y, ref_x.
    split_and!; try done; by simplify_map_eq.
Qed.

(** The dictionary left when the reference pixel is out of coverage. *)
Lemma lookup_dropped atr res_obj v1 k :
  atr !! "REF_Y" = Some v1 →
  try_pops ["REF_LAT"; "REF_LON"]
    (try_pops ["REF_Y"; "REF_X"] (geo_grid atr res_obj)) !! k =
    if bool_decide (k = "REF_Y" ∨ k = "REF_X") then None
    else if bool_decide (k = "REF_LAT") then None
    else if bool_decide (k = "REF_LON") then
      match atr !! "REF_LAT" with Some _ => None | None => atr !! "REF_LON" end
    else geo_grid atr res_obj !! k.
Proof.
  intros H1. rewrite !try_pops_pair.
  assert (has_key "REF_Y" (geo_grid atr res_obj) = true) as ->.
  { unfold has_key. apply bool_decide_eq_true_2.
    rewrite geo_grid_other by (unfold grid_keys; in_list). eauto. }
  assert (has_key "REF_LAT" (delete "REF_X" (delete "REF_Y" (geo_grid atr res_obj)))
          = match atr !! "REF_LAT" with Some _ => true | None => false end) as ->.
  { unfold has_key. rewrite !lookup_delete_ne by done.
    rewrite geo_grid_other by (unfold grid_keys; in_list).
    destruct (atr !! "REF_LAT").
    - apply bool_decide_eq_true_2. eauto.
    - apply bool_decide_eq_false_2. by intros [? ?]. }
  assert (Hlon : geo_grid atr res_obj !! "REF_LON" = atr !! "REF_LON")
    by (apply geo_grid_other; unfold grid_keys; in_list).
  assert (Hlat : geo_grid atr res_obj !! "REF_LAT" = atr !! "REF_LAT")
    by (apply geo_grid_other; unfold grid_keys; in_list).
  destruct (atr !! "REF_LAT") as [v3|] eqn:H3; rewrite !lookup_delete;
    repeat case_decide; repeat case_bool_decide; subst;
    try done; try congruence; naive_solver.
Qed.

(** C5 (what the code does): with REF_Y and REF_X present and a NaN
    latitude or longitude, the transform warns and returns, and REF_Y,
    REF_X and REF_LAT are gone; but REF_LON is popped in the same [try] as
    REF_LAT, after it, so an input holding REF_LON without REF_LAT keeps
    REF_LON in the output. *)
Theorem metadata_radar2geo_keeps_REF_LON w atr res_obj v1 v2 y x v :
  atr !! "REF_Y" = Some v1 → py_int v1 = Return y →
  atr !! "REF_X" = Some v2 → py_int v2 = Return x →
  isnan (radar2glob w y x (res_file res_obj) atr).1
    || isnan (radar2glob w y x (res_file res_obj) atr).2 = true →
  atr !! "REF_LAT" = None → atr !! "REF_LON" = Some v →
  ∃ atr',
    metadata_radar2geo w atr res_obj = (Return atr', [EvWarn out_of_coverage])
    ∧ atr' !! "REF_Y" = None ∧ atr' !! "REF_X" = None
    ∧ atr' !! "REF_LAT" = None ∧ atr' !! "REF_LON" = Some v.
Proof.
  intros H1 Hy H2 Hx Hnan H3 H4.
  rewrite (metadata_radar2geo_eval _ _ _ _ _ _ _ H1 Hy H2 Hx). lazy zeta.
  rewrite <- negb_orb, Hnan. cbn [negb].
  eexists. split; [reflexivity|].
  rewrite !(lookup_dropped _ _ _ _ H1), H3, H4.
  split_and!; try done; by rewrite bool_decide_eq_true_2 by naive_solver.
Qed.

(** The four keys are all dropped when REF_LAT is present or REF_LON is
    absent in the input. *)
Lemma metadata_radar2geo_drops_ref w atr res_obj v1 v2 y x :
  atr !! "REF_Y" = Some v1 → py_int v1 = Return y →
  atr !! "REF_X" = Some v2 → py_int v2 = Return x →
  isnan (radar2glob w y x (res_file res_obj) atr).1
    || isnan (radar2glob w y x (res_file res_obj) atr).2 = true →
  is_Some (atr !! "REF_LAT") ∨ atr !! "REF_LON" = None →
  ∃ atr',
    metadata_radar2geo w atr res_obj = (Return atr', [EvWarn out_of_coverage])
    ∧ ∀ k, k ∈ ref_keys → atr' !! k = None.
Proof.
  intros H1 Hy H2 Hx Hnan H34.
  rewrite (metadata_radar2geo_eval _ _ _ _ _ _ _ H1 Hy H2 Hx). lazy zeta.
  rewrite <- negb_orb, Hnan. cbn [negb].
  eexists. split; [reflexivity|]. intros k Hk.
  rewrite (lookup_dropped _ _ _ _ H1).
  unfold ref_keys in Hk. rewrite !elem_of_cons, elem_of_nil in Hk.
  destruct Hk as [-> | [-> | [-> | [-> | []]]]];
    repeat case_bool_decide; try done; try naive_solver.
  destruct H34 as [[? ->] | ->]; [done|]. by destruct (atr !! "REF_LAT").
Qed.

(** *** Types of the values *)

Lemma geo_grid_types atr res_obj k v :
  all_str atr → geo_grid atr res_obj !! k = Some v →
  match geometry_number res_obj k with
  | Some n => v = n
  | None => is_str v
  end.
Proof.
  intros Hstr Hk.
  destruct (geo_grid_written atr res_obj)
    as (H1 & H2 & H3 & H4 & H5 & H6 & H7 & H8).
  destruct (decide (k ∈ grid_keys)) as [Hin|Hout].
  - unfold grid_keys in Hin. rewrite !elem_of_cons, elem_of_nil in Hin.
    destruct Hin as [-> | [-> | [-> | [-> | [-> | [-> | [-> | [-> | []]]]]]]]];
      cbn;
      first [congruence
            | assert (v = PStr "degrees") as -> by congruence; exact I].
  - rewrite geo_grid_other in Hk by done.
    replace (geometry_number res_obj k) with (@None pyval); [by eapply Hstr|].
    unfold geometry_number, grid_keys in *.
    repeat case_bool_decide; subst; try done; exfalso; apply Hout; in_list.
Qed.

Lemma geometry_number_ref res_obj k :
  k ∈ ref_keys → geometry_number res_obj k = None.
Proof.
  unfold ref_keys. rewrite !elem_of_cons, elem_of_nil.
  intros [-> | [-> | [-> | [-> | []]]]]; reflexivity.
Qed.

(** C8 (amended): from a dictionary whose values are all strings, both
    transforms produce a dictionary whose values are strings except under
    the keys written from the geometry: LENGTH and WIDTH hold the grid
    size as integers, and after RadarToGeo Y_FIRST, X_FIRST, Y_STEP and
    X_STEP hold the bounding-box edges and grid steps as floats. *)
Theorem transforms_value_types atr res_obj :
  all_str atr →
  (∀ k v, metadata_geo2radar atr res_obj !! k = Some v →
          match geometry_number res_obj k with
          | Some n => v = n
          | None => is_str v
          end)
  ∧ (∀ w atr' warns k v,
       metadata_radar2geo w atr res_obj = (Return atr', warns) →
       atr' !! k = Some v →
       match geometry_number res_obj k with
       | Some n => v = n
       | None => is_str v
       end).
Proof.
  intros Hstr. split.
  - intros k v. rewrite lookup_metadata_geo2radar.
    case_bool_decide as Hgeo; [done|].
    case_bool_decide as Hw; [subst; by intros [= <-]|].
    case_bool_decide as Hl; [subst; by intros [= <-]|].
    intros Hk.
    replace (geometry_number res_obj k) with (@None pyval); [by eapply Hstr|].
    unfold geometry_number, geo_keys in *.
    rewrite !bool_decide_eq_false_2; [done|..]; try done;
      intros ->; apply Hgeo; in_list.
  - intros w atr' warns k v Hrun Hk.
    destruct (metadata_radar2geo_inv _ _ _ _ _ Hrun)
      as [(_ & -> & _) | (v1 & v2 & y & x & H1 & Hy & H2 & Hx)].
    { by eapply geo_grid_types. }
    rewrite (metadata_radar2geo_eval _ _ _ _ _ _ _ H1 Hy H2 Hx) in Hrun.
    lazy zeta in Hrun. revert Hrun.
    destruct (negb _ && negb _); intros [Hrun _]%pair_Return_inv.
    + apply outcome_bind_Return in Hrun as (ref_y & _ & Hrun).
      apply outcome_bind_Return in Hrun as (ref_x & _ & Hrun).
      simplify_eq.
      do 4 (apply lookup_insert_Some in Hk as [[<- <-] | [_ Hk]];
            [by rewrite geometry_number_ref by (unfold ref_keys; in_list)|]).
      by eapply geo_grid_types.
    + assert (atr' = try_pops ["REF_LAT"; "REF_LON"]
                       (try_pops ["REF_Y"; "REF_X"] (geo_grid atr res_obj)))
        as -> by congruence.
      do 2 apply lookup_try_pops_Some in Hk.
      by eapply geo_grid_types.
Qed.

End Metadata.


(** A relocation on the demo disk. *)
Lemma metadata_radar2geo_grid_witness :
  metadata_radar2geo Demo.disk Demo.velocity_atr Demo.res
    = (Return Demo.relocated, [])
  ∧ Demo.relocated !! "LENGTH" = Some (PInt 170)
  ∧ Demo.relocated !! "Y_FIRST" = Some (PFloat (Binary64.of_decimal false 5 (-1)))
  ∧ Demo.relocated !! "FILE_TYPE" = Demo.velocity_atr !! "FILE_TYPE"
  ∧ ∃ ref_y ref_x,
      int_of_float
        (rint (fdiv (fsub (Binary64.of_decimal true 25 (-2))
                       (SNWE_1 (res_SNWE Demo.res)))
                 (fst (res_laloStep Demo.res)))) = Return ref_y
      ∧ int_of_float
          (rint (fdiv (fsub (Binary64.of_decimal true 912 (-1))
                         (SNWE_2 (res_SNWE Demo.res)))
                   (snd (res_laloStep Demo.res)))) = Return ref_x
      ∧ Demo.relocated !! "REF_Y" = Some (PStr (pretty ref_y))
      ∧ Demo.relocated !! "REF_X" = Some (PStr (pretty ref_x))
      ∧ Demo.relocated !! "REF_LAT"
          = Some (PStr (str_of_float (Binary64.of_decimal true 25 (-2))))
      ∧ Demo.relocated !! "REF_LON"
          = Some (PStr (str_of_float (Binary64.of_decimal true 912 (-1)))).
Proof.
  assert (Hrun : metadata_radar2geo Demo.disk Demo.velocity_atr Demo.res
                 = (Return Demo.relocated, [])) by reflexivity.
  destruct (metadata_radar2geo_grid (C := Disk.collaborators)
              Demo.disk Demo.velocity_atr Demo.res Demo.relocated [] Hrun)
    as (HL & _ & HY & _ & _ & _ & _ & _ & Hcopy & _ & Hreloc).
  split; [exact Hrun|]. split; [exact HL|]. split; [exact HY|].
  split.
  - apply Hcopy; unfold grid_keys, ref_keys; not_in_list.
  - apply (Hreloc (PStr "10") (PStr "20") 10 20); reflexivity.
Defined.

(** C5, the failing input: REF_Y = 10, REF_X = 20 and REF_LON = -91.0 without
    REF_LAT, on a lookup table that yields NaN.  The transform warns and
    returns, and the output still holds REF_LON. *)
Lemma metadata_radar2geo_keeps_REF_LON_witness :
  ∃ atr',
    metadata_radar2geo Demo.disk_no_coverage Demo.velocity_atr_lon Demo.res
      = (Return atr', [EvWarn out_of_coverage])
    ∧ atr' !! "REF_Y" = None ∧ atr' !! "REF_X" = None
    ∧ atr' !! "REF_LAT" = None ∧ atr' !! "REF_LON" = Some (PStr "-91.0").
Proof.
  apply (metadata_radar2geo_keeps_REF_LON (C := Disk.collaborators)
           Demo.disk_no_coverage Demo.velocity_atr_lon Demo.res
           (PStr "10") (PStr "20") 10 20 (PStr "-91.0"));
    reflexivity.
Defined.

Lemma all_str_velocity_atr : all_str Demo.velocity_atr.
Proof.
  intros k v. unfold Demo.velocity_atr.
  repeat (rewrite lookup_insert_Some; intros [[_ <-] | [_ H]];
          [exact I | revert H]).
  rewrite lookup_empty. discriminate.
Qed.

(** The value types of both transforms of the demo attributes. *)
Lemma transforms_value_types_witness :
  all_str Demo.velocity_atr
  ∧ (∀ k v, metadata_geo2radar Demo.velocity_atr Demo.res !! k = Some v →
            match geometry_number Demo.res k with
            | Some n => v = n
            | None => is_str v
            end)
  ∧ (∀ (w : Disk.world) atr' warns k v,
       metadata_radar2geo w Demo.velocity_atr Demo.res = (Return atr', warns) →
       atr' !! k = Some v →
       match geometry_number Demo.res k with
       | Some n => v = n
       | None => is_str v
       end).
Proof.
  split; [exact all_str_velocity_atr|].
  exact (transforms_value_types (C := Disk.collaborators)
           Demo.velocity_atr Demo.res all_str_velocity_atr).
Defined.

(** C8 as stated fails: LENGTH is written as the integer grid size, not as
    a string. *)
Lemma transforms_value_types_counterexample :
  ¬ (∀ (atr : gmap string (@pyval Binary64.builtins)) res_obj,
       all_str atr →
       (∀ k v, metadata_geo2radar atr res_obj !! k = Some v → is_str v)
       ∧ (∀ (w : Disk.world) atr' warns k v,
            metadata_radar2geo w atr res_obj = (Return atr', warns) →
            atr' !! k = Some v → is_str v)).
Proof.
  intros H.
  destruct (H Demo.velocity_atr Demo.res all_str_velocity_atr) as [Hgeo _].
  exact (Hgeo "LENGTH" (PInt 170) eq_refl).
Qed.

(** ** Configuration *)

Section Configuration.

Context `{B : Builtins} `{C : @Collaborators B}.

Lemma assign_laloStep_both_or_neither (inps : Namespace) :
  both_or_neither (assign_laloStep inps).
Proof.
  destruct inps as [? ? ? ? ? ? y x ? ? ? ? ? ? ?].
  unfold both_or_neither, assign_laloStep. by destruct y, x.
Qed.

Lemma assign_laloStep_fields (inps : Namespace) :
  file (assign_laloStep inps) = file inps
  ∧ radar2geo (assign_laloStep inps) = radar2geo inps
  ∧ SNWE (assign_laloStep inps) = SNWE inps
  ∧ latStep (assign_laloStep inps) = latStep inps
  ∧ lonStep (assign_laloStep inps) = lonStep inps
  ∧ interpMethod (assign_laloStep inps) = interpMethod inps
  ∧ fillValue (assign_laloStep inps) = fillValue inps.
Proof.
  destruct inps as [? ? ? ? ? ? y x ? ? ? ? ? ? ?].
  unfold assign_laloStep. by destruct y, x.
Qed.

(** The loop over the filtered keys is the loop over all keys that skips
    the ones the template lacks. *)
Lemma template_loop_filter (template : gmap string (option string))
    (keys : list string) (inps : Namespace) :
  template_loop template
    (filter (λ i, is_Some (template !! (prefix +:+ i))) keys) inps
  = template_steps template keys inps.
Proof.
  revert inps. induction keys as [|key keys IH]; intros inps; [done|].
  rewrite filter_cons. cbn [template_steps]. unfold template_step at 1.
  destruct (decide _) as [Hin|Hout].
  - cbn [template_loop]. destruct (template !! (prefix +:+ key)) as [[v|]|];
      [| |by destruct Hin].
    + destruct (PyStr.truthy v); run; [|apply IH].
      destruct (template_assign key v inps); run; [apply IH|done..].
    + run. apply IH.
  - destruct (template !! (prefix +:+ key)) as [o|] eqn:Hk.
    + destruct Hout. by exists o.
    + run. apply IH.
Qed.

(** A template entry counts when it is present, not empty and not "auto". *)
Lemma template_step_value (template : gmap string string) key inps :
  template_step (check_template_auto_value template) key inps =
    match template_value template key with
    | Some v => template_assign key v inps
    | None => Return inps
    end.
Proof.
  unfold template_step, template_value, check_template_auto_value, prefix.
  rewrite lookup_fmap.
  destruct (template !! ("pysar.geocode." +:+ key)) as [v|]; cbn; [|done].
  unfold PyStr.truthy.
  repeat case_bool_decide; cbn; try done; naive_solver.
Qed.

(** Keys outside the [if]/[elif] chain leave the namespace as it is. *)
Lemma template_step_skip (template : gmap string (option string)) key inps :
  key ∉ ["SNWE"; "latStep"; "lonStep"; "interpMethod"; "fillValue"] →
  template_step template key inps = Return inps.
Proof.
  intros Hk. unfold template_step.
  destruct (template !! (prefix +:+ key)) as [[v|]|]; try done.
  destruct (PyStr.truthy v); [|done].
  unfold template_assign.
  rewrite !bool_decide_eq_false_2; [done|..];
    rewrite ?elem_of_cons, ?elem_of_nil in *; naive_solver.
Qed.

(** [read_template2inps] is five assignments and the step normalization. *)
Lemma read_template2inps_steps w template_file inps :
  read_template2inps w template_file inps =
    let t := check_template_auto_value (read_template w template_file) in
    i1 ← template_step t "SNWE" inps;
    i2 ← template_step t "latStep" i1;
    i3 ← template_step t "lonStep" i2;
    i4 ← template_step t "interpMethod" i3;
    i5 ← template_step t "fillValue" i4;
    Return (assign_laloStep i5).
Proof.
  unfold read_template2inps. lazy zeta.
  rewrite template_loop_filter. unfold namespace_keys.
  cbn [template_steps].
  do 5 (rewrite template_step_skip by not_in_list; run).
  destruct (template_step _ "SNWE" inps) as [i1| |]; run; [|done..].
  destruct (template_step _ "latStep" i1) as [i2| |]; run; [|done..].
  destruct (template_step _ "lonStep" i2) as [i3| |]; run; [|done..].
  destruct (template_step _ "interpMethod" i3) as [i4| |]; run; [|done..].
  destruct (template_step _ "fillValue" i4) as [i5| |]; run; [|done..].
  by do 3 (rewrite template_step_skip by not_in_list; run).
Qed.

(** The assignment made for each of the five options. *)
Lemma template_assign_SNWE v inps :
  template_assign "SNWE" v inps =
    (xs ← outcome_mapM float_of_str (PyStr.split "," v);
     Return (set_SNWE (Some xs) inps)).
Proof. reflexivity. Qed.

Lemma template_assign_latStep v inps :
  template_assign "latStep" v inps =
    (x ← float_of_str v; Return (set_latStep (Some x) inps)).
Proof. reflexivity. Qed.

Lemma template_assign_lonStep v inps :
  template_assign "lonStep" v inps =
    (x ← float_of_str v; Return (set_lonStep (Some x) inps)).
Proof. reflexivity. Qed.

Lemma template_assign_interpMethod v inps :
  template_assign "interpMethod" v inps = Return (set_interpMethod v inps).
Proof. reflexivity. Qed.

Lemma template_assign_fillValue v inps :
  template_assign "fillValue" v inps =
    if PyStr.contains "nan" (PyStr.lower v) then Return (set_fillValue nan inps)
    else (x ← float_of_str v; Return (set_fillValue x inps)).
Proof. reflexivity. Qed.

(** C1 (amended): for each of SNWE, latStep, lonStep, interpMethod and
    fillValue, a template value that is present, not empty and not "auto"
    replaces whatever the command line gave; the command-line value is kept
    only for the fields the template leaves unset. *)
Theorem read_template2inps_template_wins w template_file inps inps' :
  read_template2inps w template_file inps = Return inps' →
  let given := template_value (read_template w template_file) in
  match given "SNWE" with
  | Some v => ∃ xs, outcome_mapM float_of_str (PyStr.split "," v) = Return xs
                    ∧ SNWE inps' = Some xs
  | None => SNWE inps' = SNWE inps
  end
  ∧ match given "latStep" with
    | Some v => ∃ x, float_of_str v = Return x ∧ latStep inps' = Some x
    | None => latStep inps' = latStep inps
    end
  ∧ match given "lonStep" with
    | Some v => ∃ x, float_of_str v = Return x ∧ lonStep inps' = Some x
    | None => lonStep inps' = lonStep inps
    end
  ∧ match given "interpMethod" with
    | Some v => interpMethod inps' = v
    | None => interpMethod inps' = interpMethod inps
    end
  ∧ match given "fillValue" with
    | Some v =>
        if PyStr.contains "nan" (PyStr.lower v) then fillValue inps' = nan
        else ∃ x, float_of_str v = Return x ∧ fillValue inps' = x
    | None => fillValue inps' = fillValue inps
    end.
Proof.
  intros Hrun given.
  rewrite read_template2inps_steps in Hrun. lazy zeta in Hrun.
  apply outcome_bind_Return in Hrun as (i1 & H1 & Hrun).
  apply outcome_bind_Return in Hrun as (i2 & H2 & Hrun).
  apply outcome_bind_Return in Hrun as (i3 & H3 & Hrun).
  apply outcome_bind_Return in Hrun as (i4 & H4 & Hrun).
  apply outcome_bind_Return in Hrun as (i5 & H5 & Hrun).
  rewrite template_step_value in H1, H2, H3, H4, H5.
  fold given in H1, H2, H3, H4, H5.
  assert (inps' = assign_laloStep i5) as -> by congruence. clear Hrun.
  destruct (assign_laloStep_fields i5) as (_ & _ & -> & -> & -> & -> & ->).
  destruct (given "SNWE") as [v1|].
  all: [> rewrite template_assign_SNWE in H1;
          apply outcome_bind_Return in H1 as (xs & Hxs & H1) | ].
  all: assert (E1 := H1); clear H1.
  all: destruct (given "latStep") as [v2|];
    [rewrite template_assign_latStep in H2;
     apply outcome_bind_Return in H2 as (x2 & Hx2 & H2)|].
  all: destruct (given "lonStep") as [v3|];
    [rewrite template_assign_lonStep in H3;
     apply outcome_bind_Return in H3 as (x3 & Hx3 & H3)|].
  all: destruct (given "interpMethod") as [v4|];
    [rewrite template_assign_interpMethod in H4|].
  all: destruct (given "fillValue") as [v5|];
    [rewrite template_assign_fillValue in H5;
     destruct (PyStr.contains "nan" (PyStr.lower v5));
     [|apply outcome_bind_Return in H5 as (x5 & Hx5 & H5)]|].
  all: simplify_eq; cbn; repeat split; eauto.
Qed.

(** C4: after [_check_inps] (command line only) and after
    [read_template2inps] (template), [laloStep] is absent as soon as one of
    latStep and lonStep is unset, and holds the two steps when both are
    set. *)
Theorem laloStep_both_or_neither w template_file inps inps' :
  _check_inps w inps = Return inps'
  ∨ read_template2inps w template_file inps = Return inps' →
  (latStep inps' = None ∨ lonStep inps' = None → laloStep inps' = None)
  ∧ (∀ y x, latStep inps' = Some y → lonStep inps' = Some x →
            laloStep inps' = Some [Some y; Some x]).
Proof.
  intros Hrun.
  assert (Hlaw : both_or_neither inps').
  { destruct Hrun as [Hrun | Hrun].
    - revert Hrun. unfold _check_inps.
      destruct (file (set_file _ inps)) as [|file_0 rest]; [done|].
      repeat (match goal with |- context [if ?b then _ else _] => destruct b end);
        try done.
      all: intros [= <-]; apply assign_laloStep_both_or_neither.
    - unfold read_template2inps in Hrun.
      apply outcome_bind_Return in Hrun as (i & _ & [= <-]).
      apply assign_laloStep_both_or_neither. }
  unfold both_or_neither in Hlaw.
  destruct (latStep inps'), (lonStep inps'); split; try done;
    try (by intros [?|?]); congruence.
Qed.

End Configuration.

(** [geocode.py velocity.h5 -y 0.5 -i bilinear -t pysarApp_template.txt] on
    the demo disk, whose template sets latStep = 0.01 and
    interpMethod = nearest and leaves SNWE and lonStep on "auto" and
    fillValue empty. *)
Lemma read_template2inps_template_wins_witness :
  ∃ inps',
    read_template2inps Demo.disk "pysarApp_template.txt" Demo.cli_template
      = Return inps'
    ∧ SNWE inps' = None
    ∧ (∃ x, float_of_str "0.01" = Return x ∧ latStep inps' = Some x)
    ∧ lonStep inps' = None
    ∧ interpMethod inps' = "nearest"
    ∧ fillValue inps' = S754_nan.
Proof.
  eexists. split; [reflexivity|].
  exact (read_template2inps_template_wins (C := Disk.collaborators)
           Demo.disk "pysarApp_template.txt" Demo.cli_template _ eq_refl).
Defined.

(** C1 as stated fails: the command line asked for bilinear interpolation
    and a latitude step of 0.5, the template for nearest and 0.01, and the
    resolved request holds the template's values. *)
Lemma read_template2inps_cli_precedence_counterexample :
  ¬ (∀ (w : Disk.world) template_file inps inps',
       read_template2inps w template_file inps = Return inps' →
       (∀ v, template_value (read_template w template_file) "interpMethod"
               = Some v →
             interpMethod inps' = interpMethod inps)
       ∧ (∀ v, template_value (read_template w template_file) "latStep"
                 = Some v →
               is_Some (latStep inps) → latStep inps' = latStep inps)).
Proof.
  intros H.
  destruct (H Demo.disk "pysarApp_template.txt" Demo.cli_template _ eq_refl)
    as [Hinterp _].
  specialize (Hinterp "nearest" eq_refl). discriminate Hinterp.
Qed.

(** [geocode.py velocity.h5 -y 0.5]: one step only, no grid step; and, with
    the template of the demo disk, latStep = 0.01 alone, no grid step
    either; with both steps on the command line the grid step is the
    pair. *)
Lemma laloStep_both_or_neither_witness :
  (∃ inps', _check_inps Demo.disk Demo.cli_lat = Return inps'
            ∧ lonStep inps' = None ∧ laloStep inps' = None)
  ∧ (∃ inps', read_template2inps Demo.disk "pysarApp_template.txt"
                (Demo.cli ["velocity.h5"]) = Return inps'
              ∧ lonStep inps' = None ∧ laloStep inps' = None)
  ∧ (∃ inps', _check_inps Demo.disk Demo.cli_lat_lon = Return inps'
              ∧ laloStep inps' = Some [Some (Binary64.of_decimal false 1 (-2));
                                       Some (Binary64.of_decimal false 5 (-3))]).
Proof.
  split_and!.
  - eexists. split; [reflexivity|]. split; [reflexivity|].
    apply (laloStep_both_or_neither (C := Disk.collaborators)
             Demo.disk "" Demo.cli_lat _ (or_introl eq_refl)).
    right. reflexivity.
  - eexists. split; [reflexivity|]. split; [reflexivity|].
    apply (laloStep_both_or_neither (C := Disk.collaborators)
             Demo.disk "pysarApp_template.txt" (Demo.cli ["velocity.h5"]) _
             (or_intror eq_refl)).
    right. reflexivity.
  - eexists. split; [reflexivity|].
    apply (laloStep_both_or_neither (C := Disk.collaborators)
             Demo.disk "" Demo.cli_lat_lon _ (or_introl eq_refl));
      reflexivity.
Defined.

(** ** Direction guard *)

Section Direction.

Context `{B : Builtins} `{C : @Collaborators B}.

(** [_check_inps] once the file list and the first file's attributes are
    known. *)
Lemma check_inps_eval w inps file_0 rest :
  get_file_list w (file inps) = file_0 :: rest →
  _check_inps w inps =
    if bool_decide (has_key "Y_FIRST" (read_attribute w file_0 None)
                    = radar2geo inps)
    then SysExit 0
    else
      let inps1 := set_file (file_0 :: rest) inps in
      let inps2 :=
        if bool_decide (1 < length (file_0 :: rest))%nat
        then set_outfile None inps1 else inps1 in
      let inps3 :=
        set_lookupFile (get_lookup_file w (lookupFile inps)) inps2 in
      if PyStr.truthy_opt (get_lookup_file w (lookupFile inps))
      then Return (assign_laloStep inps3)
      else Raise (FileNotFoundError
                    "No lookup table found! Can not geocode without it.").
Proof.
  intros Hfiles. unfold _check_inps. cbn [file set_file]. rewrite Hfiles.
  destruct (has_key _ _), (radar2geo inps) eqn:Hdir; cbn [andb negb];
    rewrite ?bool_decide_eq_true_2, ?bool_decide_eq_false_2 by done;
    try done.
  all: lazy zeta; destruct (bool_decide (1 < _)%nat); cbn;
    rewrite ?Hdir; cbn; by destruct (PyStr.truthy_opt _).
Qed.

(** The template leaves the file list and the direction alone. *)
Lemma template_assign_keeps key v inps inps' :
  template_assign key v inps = Return inps' →
  file inps' = file inps ∧ radar2geo inps' = radar2geo inps.
Proof.
  unfold template_assign. repeat case_bool_decide.
  all: repeat (match goal with
               | |- context [if ?b then _ else _] => destruct b
               end).
  all: intros Hret;
    repeat (apply outcome_bind_Return in Hret as (? & _ & Hret));
    by simplify_eq.
Qed.

Lemma read_template2inps_keeps w template_file inps inps' :
  read_template2inps w template_file inps = Return inps' →
  file inps' = file inps ∧ radar2geo inps' = radar2geo inps.
Proof.
  unfold read_template2inps.
  intros (i & Hloop & [= <-])%outcome_bind_Return.
  destruct (assign_laloStep_fields i) as (-> & -> & _).
  revert Hloop. generalize (filter (λ i, is_Some
    (check_template_auto_value (read_template w template_file)
       !! (prefix +:+ i))) namespace_keys).
  intros keys. revert inps. induction keys as [|key keys IH]; intros inps.
  - by intros [= <-].
  - cbn [template_loop]. destruct (_ !! _) as [[v|]|]; [| |done].
    + intros (i1 & H1 & Hrest)%outcome_bind_Return.
      apply IH in Hrest as [-> ->].
      destruct (PyStr.truthy v); [by eapply template_assign_keeps|].
      by simplify_eq.
    + run. apply IH.
Qed.



End Direction.



(** ** Batch loop *)

Section Batch.

Context `{B : Builtins} `{C : @Collaborators B}.

(** C2 (what the code does): in update mode, when the output of the first
    input file is up to date, [run_resample] returns that output path with
    the disk untouched and no call to the engine or the writer; the
    [return] is inside the loop, so the files after it are not looked at. *)
Theorem run_resample_update_returns w inps file_0 rest :
  file inps = file_0 :: rest →
  updateMode inps = true →
  update_file w (auto_output_filename file_0 inps)
    [Some file_0; lookupFile inps] = false →
  run_resample w inps = (Return (auto_output_filename file_0 inps), w, []).
Proof.
  intros Hfile Hupdate Hfresh. unfold run_resample. rewrite Hfile.
  lazy zeta. set (inps' := set_nprocs (Some cpu_count) inps).
  change (file inps') with (file inps). rewrite Hfile.
  cbn [resample_files].
  change (auto_output_filename file_0 inps')
    with (auto_output_filename file_0 inps).
  change (updateMode inps') with (updateMode inps).
  change (lookupFile inps') with (lookupFile inps).
  by rewrite Hupdate, Hfresh.
Qed.

End Batch.

(** C2, the failing input: [geocode.py velocity.h5 timeseries.h5 --update]
    on the demo disk, where [geo_velocity.h5] is newer than [velocity.h5]
    and the lookup table, and [geo_timeseries.h5] does not exist.  The run
    returns "geo_velocity.h5"; [timeseries.h5], whose output needs an
    update, is never resampled or written. *)
Lemma run_resample_update_returns_witness :
  _check_inps Demo.disk Demo.cli_update = Return Demo.checked_update
  ∧ run_resample Demo.disk Demo.checked_update
      = (Return "geo_velocity.h5", Demo.disk, [])
  ∧ update_file Demo.disk
      (auto_output_filename "timeseries.h5" Demo.checked_update)
      [Some "timeseries.h5"; lookupFile Demo.checked_update] = true
  ∧ main Demo.disk Demo.cli_update = (Return (), Demo.disk, []).
Proof.
  split; [reflexivity|]. split; [|split; reflexivity].
  exact (run_resample_update_returns (C := Disk.collaborators)
           Demo.disk Demo.checked_update "velocity.h5" ["timeseries.h5"]
           eq_refl eq_refl eq_refl).
Defined.

(** The same two files in the other order: [timeseries.h5] is resampled and
    written before the loop meets the up-to-date [geo_velocity.h5]. *)
Example run_resample_update_reversed :
  (run_resample Demo.disk
     (set_file ["timeseries.h5"; "velocity.h5"] Demo.checked_update)).1.1
    = Return "geo_velocity.h5"
  ∧ (run_resample Demo.disk
       (set_file ["timeseries.h5"; "velocity.h5"] Demo.checked_update)).2
    = [EvResample "timeseries.h5" "timeseries";
       EvWrite "geo_timeseries.h5" ["timeseries"]
         (geo_grid Demo.timeseries_atr Demo.res) (Some "timeseries.h5")].
Proof. split; reflexivity. Qed.

(** * Further properties *)

(** ** Metadata transforms, composed *)

Section MetadataMore.

Context `{B : Builtins} `{C : @Collaborators B}.

Implicit Types (atr : gmap string pyval) (res_obj : ResampleObj) (k : string).

(** X1: GeoToRadar, key by key: the ten geo keys are absent, WIDTH and
    LENGTH hold the geometry's grid size, and every other key keeps the
    value it has in the input. *)
Theorem metadata_geo2radar_keys atr res_obj k :
  metadata_geo2radar atr res_obj !! k =
    if bool_decide (k ∈ geo_keys) then None
    else if bool_decide (k = "WIDTH") then Some (PInt (res_width res_obj))
    else if bool_decide (k = "LENGTH") then Some (PInt (res_length res_obj))
    else atr !! k.
Proof. apply lookup_metadata_geo2radar. Qed.

(** X2: with REF_Y and REF_X readable and a NaN latitude or longitude,
    RadarToGeo warns once and returns a dictionary without REF_Y, REF_X and
    REF_LAT; REF_LON is gone from it exactly when the input has REF_LAT or
    has no REF_LON. *)
Theorem metadata_radar2geo_out_of_coverage w atr res_obj v1 v2 y x :
  atr !! "REF_Y" = Some v1 → py_int v1 = Return y →
  atr !! "REF_X" = Some v2 → py_int v2 = Return x →
  isnan (radar2glob w y x (res_file res_obj) atr).1
    || isnan (radar2glob w y x (res_file res_obj) atr).2 = true →
  ∃ atr',
    metadata_radar2geo w atr res_obj = (Return atr', [EvWarn out_of_coverage])
    ∧ atr' !! "REF_Y" = None ∧ atr' !! "REF_X" = None
    ∧ atr' !! "REF_LAT" = None
    ∧ (atr' !! "REF_LON" = None
       ↔ is_Some (atr !! "REF_LAT") ∨ atr !! "REF_LON" = None).
Proof.
  intros H1 Hy H2 Hx Hnan.
  rewrite (metadata_radar2geo_eval _ _ _ _ _ _ _ H1 Hy H2 Hx). lazy zeta.
  rewrite <- negb_orb, Hnan. cbn [negb].
  eexists. split; [reflexivity|].
  rewrite !(lookup_dropped _ _ _ _ H1).
  split_and!; [done..|]. cbn.
  destruct (atr !! "REF_LAT") as [v3|].
  - split; [eauto|done].
  - split; [by right|]. intros [[? [=]] | ?]. done.
Qed.

(** Whatever way [metadata_radar2geo] returns, its dictionary is [geo_grid]
    outside the four reference-pixel keys. *)
Lemma metadata_radar2geo_outside_ref w atr res_obj atr' warns k :
  metadata_radar2geo w atr res_obj = (Return atr', warns) →
  k ∉ ref_keys → atr' !! k = geo_grid atr res_obj !! k.
Proof.
  intros Hrun Hk.
  destruct (metadata_radar2geo_inv _ _ _ _ _ Hrun)
    as [(_ & -> & _) | (v1 & v2 & y & x & H1 & Hy & H2 & Hx)]; [done|].
  rewrite (metadata_radar2geo_eval _ _ _ _ _ _ _ H1 Hy H2 Hx) in Hrun.
  lazy zeta in Hrun. revert Hrun.
  destruct (negb _ && negb _); intros [Hrun _]%pair_Return_inv.
  - apply outcome_bind_Return in Hrun as (ref_y & _ & Hrun).
    apply outcome_bind_Return in Hrun as (ref_x & _ & Hrun).
    simplify_eq. unfold ref_keys in Hk.
    rewrite !lookup_insert_ne; [done|..]; intros <-; apply Hk;
      rewrite !elem_of_cons; tauto.
  - assert (atr' = try_pops ["REF_LAT"; "REF_LON"]
                     (try_pops ["REF_Y"; "REF_X"] (geo_grid atr res_obj)))
      as -> by congruence.
    unfold ref_keys in Hk.
    rewrite !lookup_try_pops_other; [done|..];
      intros Hin; apply Hk; revert Hin; rewrite !elem_of_cons; tauto.
Qed.

(** X3: a reference pixel that cannot be read stops the RadarToGeo transform
    before the lookup table is consulted: REF_Y without REF_X raises
    [KeyError('REF_X')], and an exception of [int(...)] on either value is
    passed on; no warning is issued. *)
Theorem metadata_radar2geo_unreadable_ref w atr res_obj v1 :
  atr !! "REF_Y" = Some v1 →
  (∀ e, py_int v1 = Raise e →
        metadata_radar2geo w atr res_obj = (Raise e, []))
  ∧ (∀ y, py_int v1 = Return y → atr !! "REF_X" = None →
          metadata_radar2geo w atr res_obj = (Raise (KeyError "REF_X"), []))
  ∧ (∀ y v2 e, py_int v1 = Return y → atr !! "REF_X" = Some v2 →
               py_int v2 = Raise e →
               metadata_radar2geo w atr res_obj = (Raise e, [])).
Proof.
  intros H1.
  unfold metadata_radar2geo. fold (geo_grid atr res_obj).
  unfold has_key, getitem.
  rewrite !(geo_grid_other atr res_obj "REF_Y"),
          !(geo_grid_other atr res_obj "REF_X") by (unfold grid_keys; not_in_list).
  rewrite H1. rewrite (bool_decide_eq_true_2 (is_Some (Some v1))) by eauto.
  run. split_and!.
  - intros e ->. by run.
  - intros y -> ->. by run.
  - intros y v2 e -> -> . run. intros ->. by run.
Qed.

(** X4: reverse-transforming the metadata of a geocoded file gives what
    reverse-transforming the original metadata gives: nothing the
    RadarToGeo transform wrote survives GeoToRadar, whichever way RadarToGeo
    returned. *)
Theorem metadata_geo2radar_after_radar2geo w atr res_obj atr' warns res_obj' :
  metadata_radar2geo w atr res_obj = (Return atr', warns) →
  metadata_geo2radar atr' res_obj' = metadata_geo2radar atr res_obj'.
Proof.
  intros Hrun. apply map_eq. intros k.
  rewrite !lookup_metadata_geo2radar.
  case_bool_decide as Hgeo; [done|].
  case_bool_decide; [done|]. case_bool_decide; [done|].
  rewrite (metadata_radar2geo_outside_ref _ _ _ _ _ k Hrun).
  - apply geo_grid_other. unfold grid_keys, geo_keys in *.
    intros Hin. apply Hgeo. revert Hin. rewrite !elem_of_cons, !elem_of_nil.
    naive_solver.
  - unfold ref_keys, geo_keys in *.
    intros Hin. apply Hgeo. revert Hin. rewrite !elem_of_cons, !elem_of_nil.
    tauto.
Qed.

(** X5: geocoding metadata that went through GeoToRadar always returns,
    without warning and without consulting the lookup table: the result has
    no reference pixel, the grid of the new geometry, and every other key
    of the original. *)
Theorem metadata_radar2geo_after_geo2radar w atr res_obj res_obj' :
  ∃ atr',
    metadata_radar2geo w (metadata_geo2radar atr res_obj) res_obj'
      = (Return atr', [])
    ∧ ∀ k,
        atr' !! k =
          if bool_decide (k ∈ ref_keys) then None
          else if bool_decide (k ∈ ["Y_UNIT"; "X_UNIT"]) then Some (PStr "degrees")
          else match geometry_number res_obj' k with
               | Some n => Some n
               | None => atr !! k
               end.
Proof.
  eexists. split.
  - apply metadata_radar2geo_no_ref. rewrite lookup_metadata_geo2radar.
    rewrite bool_decide_eq_true_2; [done|].
    unfold geo_keys. rewrite !elem_of_cons. tauto.
  - intros k.
    destruct (geo_grid_written (metadata_geo2radar atr res_obj) res_obj')
      as (H1 & H2 & H3 & H4 & H5 & H6 & H7 & H8).
    destruct (decide (k ∈ grid_keys)) as [Hin|Hout].
    + unfold grid_keys in Hin. rewrite !elem_of_cons, elem_of_nil in Hin.
      destruct Hin as [-> | [-> | [-> | [-> | [-> | [-> | [-> | [-> | []]]]]]]]];
        assumption.
    + rewrite geo_grid_other by done. rewrite lookup_metadata_geo2radar.
      unfold grid_keys in Hout.
      assert (Hnum : geometry_number res_obj' k = None).
      { unfold geometry_number.
        rewrite !bool_decide_eq_false_2; [done|..]; intros ->; apply Hout;
          rewrite !elem_of_cons; tauto. }
      rewrite Hnum.
      rewrite (bool_decide_eq_false_2 (k ∈ ["Y_UNIT"; "X_UNIT"]))
        by (intros Hin; apply Hout; revert Hin;
            rewrite !elem_of_cons, !elem_of_nil; tauto).
      rewrite (bool_decide_eq_false_2 (k = "WIDTH"))
        by (intros ->; apply Hout; rewrite !elem_of_cons; tauto).
      rewrite (bool_decide_eq_false_2 (k = "LENGTH"))
        by (intros ->; apply Hout; rewrite !elem_of_cons; tauto).
      destruct (decide (k ∈ ref_keys)) as [Hr|Hr].
      * rewrite (bool_decide_eq_true_2 (k ∈ ref_keys)) by done.
        rewrite bool_decide_eq_true_2; [done|].
        revert Hr. unfold ref_keys, geo_keys.
        rewrite !elem_of_cons, !elem_of_nil. tauto.
      * rewrite (bool_decide_eq_false_2 (k ∈ ref_keys)) by done.
        rewrite bool_decide_eq_false_2; [done|].
        intros Hg. revert Hg Hr Hout. unfold ref_keys, geo_keys.
        rewrite !elem_of_cons, !elem_of_nil. tauto.
Qed.

End MetadataMore.

(** ** Resolution of the request *)

Lemma returns_bind {A B} (m : outcome A) (f : A → outcome B) :
  returns m = true → (∀ a, m = Return a → returns (f a) = true) →
  returns (m ≫= f) = true.
Proof. destruct m as [a| |]; [|done..]. intros _ H. run. by apply H. Qed.

Section RequestMore.

Context `{B : Builtins} `{C : @Collaborators B}.

Lemma assign_laloStep_rest (inps : Namespace) :
  dset (assign_laloStep inps) = dset inps
  ∧ lookupFile (assign_laloStep inps) = lookupFile inps
  ∧ templateFile (assign_laloStep inps) = templateFile inps
  ∧ updateMode (assign_laloStep inps) = updateMode inps
  ∧ outfile (assign_laloStep inps) = outfile inps
  ∧ out_dir (assign_laloStep inps) = out_dir inps
  ∧ nprocs (assign_laloStep inps) = nprocs inps.
Proof.
  destruct inps as [? ? ? ? ? ? y x ? ? ? ? ? ? ?].
  unfold assign_laloStep. by destruct y, x.
Qed.

(** X6: when no input file is found [_check_inps] raises
    [Exception('ERROR: no input file found!')] before it reads any
    attribute or looks for a lookup table, and [main] stops there with the
    disk untouched and no call made, with or without a template. *)
Theorem check_inps_no_input_file w inps :
  get_file_list w (file inps) = [] →
  _check_inps w inps = Raise (Exception "ERROR: no input file found!")
  ∧ (PyStr.truthy_opt (templateFile inps) = false →
     main w inps = (Raise (Exception "ERROR: no input file found!"), w, []))
  ∧ (∀ t inps1, templateFile inps = Some t → PyStr.truthy t = true →
                read_template2inps w t inps = Return inps1 →
                main w inps
                  = (Raise (Exception "ERROR: no input file found!"), w, [])).
Proof.
  intros Hfiles.
  assert (Hcheck : ∀ i, file i = file inps →
    _check_inps w i = Raise (Exception "ERROR: no input file found!")).
  { intros i Hi. unfold _check_inps. cbn [file set_file].
    by rewrite Hi, Hfiles. }
  split_and!.
  - by apply Hcheck.
  - intros Htpl. unfold main.
    destruct (templateFile inps) as [t|]; cbn in Htpl;
      rewrite ?Htpl; run; by rewrite Hcheck.
  - intros t inps1 Ht Htrue Hread. unfold main. rewrite Ht, Htrue, Hread. run.
    destruct (read_template2inps_keeps _ _ _ _ Hread) as [Hf _].
    by rewrite Hcheck.
Qed.

(** X7: the request [_check_inps] returns holds the file list found on disk,
    not empty, with a first file that is not yet in the requested
    coordinate system, and a lookup table path that is not empty;
    [--output] is dropped when more than one file was found and kept
    otherwise; every other option is as parsed. *)
Theorem check_inps_request w inps inps' :
  _check_inps w inps = Return inps' →
  file inps' = get_file_list w (file inps)
  ∧ (∃ file_0 rest,
       file inps' = file_0 :: rest
       ∧ has_key "Y_FIRST" (read_attribute w file_0 None)
           = negb (radar2geo inps))
  ∧ lookupFile inps' = get_lookup_file w (lookupFile inps)
  ∧ (∃ p, lookupFile inps' = Some p ∧ p ≠ "")
  ∧ outfile inps' =
      (if bool_decide (1 < length (file inps'))%nat then None else outfile inps)
  ∧ dset inps' = dset inps ∧ radar2geo inps' = radar2geo inps
  ∧ templateFile inps' = templateFile inps ∧ SNWE inps' = SNWE inps
  ∧ latStep inps' = latStep inps ∧ lonStep inps' = lonStep inps
  ∧ interpMethod inps' = interpMethod inps ∧ fillValue inps' = fillValue inps
  ∧ updateMode inps' = updateMode inps ∧ out_dir inps' = out_dir inps.
Proof.
  intros Hrun.
  destruct (get_file_list w (file inps)) as [|file_0 rest] eqn:Hfiles.
  { unfold _check_inps in Hrun. cbn [file set_file] in Hrun.
    by rewrite Hfiles in Hrun. }
  rewrite (check_inps_eval _ _ _ _ Hfiles) in Hrun.
  case_bool_decide as Hdir; [done|]. lazy zeta in Hrun.
  destruct (get_lookup_file w (lookupFile inps)) as [p|] eqn:Hlookup;
    cbn [PyStr.truthy_opt] in Hrun; [|done].
  destruct (PyStr.truthy p) eqn:Hp; [|done].
  injection Hrun as <-.
  match goal with
  | |- context [assign_laloStep ?i] =>
      destruct (assign_laloStep_fields i) as (-> & -> & -> & -> & -> & -> & ->);
      destruct (assign_laloStep_rest i) as (-> & -> & -> & -> & -> & -> & _)
  end.
  assert (Hneg : has_key "Y_FIRST" (read_attribute w file_0 None)
                 = negb (radar2geo inps))
    by (by destruct (has_key _ _), (radar2geo inps)).
  assert (Hne : p ≠ "").
  { intros ->. by vm_compute in Hp. }
  cbn [length].
  destruct (bool_decide (1 < S (length rest))%nat) eqn:Hlen; cbn;
    rewrite ?Hlen; split_and!; eauto.
Qed.

(** Every assignment of [read_template2inps] is to one of SNWE, latStep,
    lonStep, interpMethod and fillValue. *)
Lemma template_assign_rest key v inps inps' :
  template_assign key v inps = Return inps' →
  file inps' = file inps ∧ dset inps' = dset inps
  ∧ radar2geo inps' = radar2geo inps ∧ lookupFile inps' = lookupFile inps
  ∧ templateFile inps' = templateFile inps
  ∧ updateMode inps' = updateMode inps ∧ outfile inps' = outfile inps
  ∧ out_dir inps' = out_dir inps ∧ nprocs inps' = nprocs inps.
Proof.
  unfold template_assign. repeat case_bool_decide.
  all: repeat (match goal with
               | |- context [if ?b then _ else _] => destruct b
               end).
  all: intros Hret;
    repeat (apply outcome_bind_Return in Hret as (? & _ & Hret));
    by simplify_eq.
Qed.

(** X8: a template cannot change the input files, the dataset, the
    direction, the lookup table, the update mode or the output names: keys
    such as [pysar.geocode.outfile] or [pysar.geocode.updateMode] are read
    and ignored. *)
Theorem read_template2inps_other_options w template_file inps inps' :
  read_template2inps w template_file inps = Return inps' →
  file inps' = file inps ∧ dset inps' = dset inps
  ∧ radar2geo inps' = radar2geo inps ∧ lookupFile inps' = lookupFile inps
  ∧ templateFile inps' = templateFile inps
  ∧ updateMode inps' = updateMode inps ∧ outfile inps' = outfile inps
  ∧ out_dir inps' = out_dir inps ∧ nprocs inps' = nprocs inps.
Proof.
  unfold read_template2inps.
  intros (i & Hloop & [= <-])%outcome_bind_Return.
  destruct (assign_laloStep_fields i) as (-> & -> & _).
  destruct (assign_laloStep_rest i) as (-> & -> & -> & -> & -> & -> & ->).
  revert Hloop. generalize (filter (λ i, is_Some
    (check_template_auto_value (read_template w template_file)
       !! (prefix +:+ i))) namespace_keys).
  intros keys. revert inps. induction keys as [|key keys IH]; intros inps.
  - by intros [= <-].
  - cbn [template_loop]. destruct (_ !! _) as [[v|]|]; [| |done].
    + intros (i1 & H1 & Hrest)%outcome_bind_Return.
      apply IH in Hrest as (-> & -> & -> & -> & -> & -> & -> & -> & ->).
      destruct (PyStr.truthy v); [by eapply template_assign_rest|].
      by simplify_eq.
    + run. apply IH.
Qed.

(** X9: [read_template2inps] returns as soon as every number the template
    gives can be read: the components of SNWE, latStep, lonStep, and
    fillValue unless it contains "nan". *)
Theorem read_template2inps_returns w template_file inps :
  let given := template_value (read_template w template_file) in
  (∀ v, given "SNWE" = Some v →
        returns (outcome_mapM float_of_str (PyStr.split "," v)) = true) →
  (∀ v, given "latStep" = Some v → returns (float_of_str v) = true) →
  (∀ v, given "lonStep" = Some v → returns (float_of_str v) = true) →
  (∀ v, given "fillValue" = Some v →
        PyStr.contains "nan" (PyStr.lower v) = false →
        returns (float_of_str v) = true) →
  returns (read_template2inps w template_file inps) = true.
Proof.
  intros given H1 H2 H3 H5.
  rewrite read_template2inps_steps. lazy zeta.
  apply returns_bind; [|intros i1 _].
  { rewrite template_step_value. fold given.
    destruct (given "SNWE") as [v|]; [|done].
    rewrite template_assign_SNWE. apply returns_bind; [by apply H1|done]. }
  apply returns_bind; [|intros i2 _].
  { rewrite template_step_value. fold given.
    destruct (given "latStep") as [v|]; [|done].
    rewrite template_assign_latStep. apply returns_bind; [by apply H2|done]. }
  apply returns_bind; [|intros i3 _].
  { rewrite template_step_value. fold given.
    destruct (given "lonStep") as [v|]; [|done].
    rewrite template_assign_lonStep. apply returns_bind; [by apply H3|done]. }
  apply returns_bind; [|intros i4 _].
  { rewrite template_step_value. fold given.
    by destruct (given "interpMethod") as [v|]. }
  apply returns_bind; [|done].
  rewrite template_step_value. fold given.
  destruct (given "fillValue") as [v|]; [|done].
  rewrite template_assign_fillValue.
  destruct (PyStr.contains "nan" (PyStr.lower v)) eqn:Hnan; [done|].
  apply returns_bind; [by apply H5|done].
Qed.

(** Each turn of the loop acts on every namespace in the same way: it
    keeps it, or it sets one field to a value read from the template. *)
Lemma template_step_SNWE template inps i :
  template_step (check_template_auto_value template) "SNWE" inps = Return i →
  ∃ s, (s = id ∨ ∃ xs, s = set_SNWE (Some xs)) ∧ i = s inps
       ∧ ∀ j, template_step (check_template_auto_value template) "SNWE" j
              = Return (s j).
Proof.
  rewrite template_step_value.
  destruct (template_value template "SNWE") as [v|] eqn:E.
  - rewrite template_assign_SNWE.
    intros (xs & Hxs & [= <-])%outcome_bind_Return.
    exists (set_SNWE (Some xs)). split_and!; [eauto|done|].
    intros j. rewrite template_step_value, E, template_assign_SNWE, Hxs.
    by run.
  - intros [= <-]. exists id. split_and!; [eauto|done|].
    intros j. by rewrite template_step_value, E.
Qed.

Lemma template_step_latStep template inps i :
  template_step (check_template_auto_value template) "latStep" inps = Return i →
  ∃ s, (s = id ∨ ∃ x, s = set_latStep (Some x)) ∧ i = s inps
       ∧ ∀ j, template_step (check_template_auto_value template) "latStep" j
              = Return (s j).
Proof.
  rewrite template_step_value.
  destruct (template_value template "latStep") as [v|] eqn:E.
  - rewrite template_assign_latStep.
    intros (x & Hx & [= <-])%outcome_bind_Return.
    exists (set_latStep (Some x)). split_and!; [eauto|done|].
    intros j. rewrite template_step_value, E, template_assign_latStep, Hx.
    by run.
  - intros [= <-]. exists id. split_and!; [eauto|done|].
    intros j. by rewrite template_step_value, E.
Qed.

Lemma template_step_lonStep template inps i :
  template_step (check_template_auto_value template) "lonStep" inps = Return i →
  ∃ s, (s = id ∨ ∃ x, s = set_lonStep (Some x)) ∧ i = s inps
       ∧ ∀ j, template_step (check_template_auto_value template) "lonStep" j
              = Return (s j).
Proof.
  rewrite template_step_value.
  destruct (template_value template "lonStep") as [v|] eqn:E.
  - rewrite template_assign_lonStep.
    intros (x & Hx & [= <-])%outcome_bind_Return.
    exists (set_lonStep (Some x)). split_and!; [eauto|done|].
    intros j. rewrite template_step_value, E, template_assign_lonStep, Hx.
    by run.
  - intros [= <-]. exists id. split_and!; [eauto|done|].
    intros j. by rewrite template_step_value, E.
Qed.

Lemma template_step_interpMethod template inps i :
  template_step (check_template_auto_value template) "interpMethod" inps
    = Return i →
  ∃ s, (s = id ∨ ∃ v, s = set_interpMethod v) ∧ i = s inps
       ∧ ∀ j, template_step (check_template_auto_value template)
                "interpMethod" j = Return (s j).
Proof.
  rewrite template_step_value.
  destruct (template_value template "interpMethod") as [v|] eqn:E.
  - rewrite template_assign_interpMethod. intros [= <-].
    exists (set_interpMethod v). split_and!; [eauto|done|].
    intros j. by rewrite template_step_value, E, template_assign_interpMethod.
  - intros [= <-]. exists id. split_and!; [eauto|done|].
    intros j. by rewrite template_step_value, E.
Qed.

Lemma template_step_fillValue template inps i :
  template_step (check_template_auto_value template) "fillValue" inps
    = Return i →
  ∃ s, (s = id ∨ ∃ x, s = set_fillValue x) ∧ i = s inps
       ∧ ∀ j, template_step (check_template_auto_value template)
                "fillValue" j = Return (s j).
Proof.
  rewrite template_step_value.
  destruct (template_value template "fillValue") as [v|] eqn:E.
  - rewrite template_assign_fillValue.
    destruct (PyStr.contains "nan" (PyStr.lower v)) eqn:Hnan.
    + intros [= <-]. exists (set_fillValue nan). split_and!; [eauto|done|].
      intros j.
      by rewrite template_step_value, E, template_assign_fillValue, Hnan.
    + intros (x & Hx & [= <-])%outcome_bind_Return.
      exists (set_fillValue x). split_and!; [eauto|done|].
      intros j.
      rewrite template_step_value, E, template_assign_fillValue, Hnan, Hx.
      by run.
  - intros [= <-]. exists id. split_and!; [eauto|done|].
    intros j. by rewrite template_step_value, E.
Qed.

(** X10: reading the same template a second time changes nothing: the
    request [read_template2inps] returned is a fixed point of it. *)
Theorem read_template2inps_idempotent w template_file inps inps' :
  read_template2inps w template_file inps = Return inps' →
  read_template2inps w template_file inps' = Return inps'.
Proof.
  intros Hrun. rewrite read_template2inps_steps in *. lazy zeta in *.
  apply outcome_bind_Return in Hrun as (i1 & H1 & Hrun).
  apply outcome_bind_Return in Hrun as (i2 & H2 & Hrun).
  apply outcome_bind_Return in Hrun as (i3 & H3 & Hrun).
  apply outcome_bind_Return in Hrun as (i4 & H4 & Hrun).
  apply outcome_bind_Return in Hrun as (i5 & H5 & Hrun).
  apply template_step_SNWE in H1 as (s1 & S1 & -> & K1).
  apply template_step_latStep in H2 as (s2 & S2 & -> & K2).
  apply template_step_lonStep in H3 as (s3 & S3 & -> & K3).
  apply template_step_interpMethod in H4 as (s4 & S4 & -> & K4).
  apply template_step_fillValue in H5 as (s5 & S5 & -> & K5).
  assert (inps' = assign_laloStep (s5 (s4 (s3 (s2 (s1 inps))))))
    as -> by congruence. clear Hrun.
  rewrite K1. run. rewrite K2. run. rewrite K3. run. rewrite K4. run.
  rewrite K5. run. f_equal. clear K1 K2 K3 K4 K5.
  destruct inps as [f d r l t b la lo m fv u o od ll np].
  destruct S1 as [-> | [xs ->]], S2 as [-> | [x2 ->]], S3 as [-> | [x3 ->]],
    S4 as [-> | [v4 ->]], S5 as [-> | [x5 ->]];
    destruct la, lo; vm_compute; reflexivity.
Qed.

End RequestMore.

(** ** Direction of transformed metadata *)

Section DirectionMore.

Context `{B : Builtins} `{C : @Collaborators B}.

(** X11: the two transforms set the flag [_check_inps] tests.  A first input
    file that has [Y_FIRST] exactly when the metadata RadarToGeo produced has
    it makes a RadarToGeo run exit with nothing done, and one that has it
    exactly when the metadata GeoToRadar produced has it makes a GeoToRadar
    run exit with nothing done. *)
Theorem transformed_metadata_direction w inps file_0 rest :
  get_file_list w (file inps) = file_0 :: rest →
  (∀ w0 atr res_obj atr' warns,
     metadata_radar2geo w0 atr res_obj = (Return atr', warns) →
     has_key "Y_FIRST" (read_attribute w file_0 None) = has_key "Y_FIRST" atr' →
     radar2geo inps = true → _check_inps w inps = SysExit 0)
  ∧ (∀ atr res_obj,
       has_key "Y_FIRST" (read_attribute w file_0 None)
         = has_key "Y_FIRST" (metadata_geo2radar atr res_obj) →
       radar2geo inps = false → _check_inps w inps = SysExit 0).
Proof.
  intros Hfiles. split.
  - intros w0 atr res_obj atr' warns Hrun Hread Hdir.
    rewrite (check_inps_eval _ _ _ _ Hfiles).
    rewrite bool_decide_eq_true_2; [done|].
    rewrite Hdir, Hread. unfold has_key. apply bool_decide_eq_true_2.
    rewrite (metadata_radar2geo_outside_ref _ _ _ _ _ "Y_FIRST" Hrun)
      by (unfold ref_keys; not_in_list).
    destruct (geo_grid_written atr res_obj) as (_ & _ & -> & _). eauto.
  - intros atr res_obj Hread Hdir.
    rewrite (check_inps_eval _ _ _ _ Hfiles).
    rewrite bool_decide_eq_true_2; [done|].
    rewrite Hdir, Hread. unfold has_key. apply bool_decide_eq_false_2.
    rewrite lookup_metadata_geo2radar.
    rewrite bool_decide_eq_true_2; [by intros [? ?]|].
    unfold geo_keys. rewrite !elem_of_cons. tauto.
Qed.

End DirectionMore.

(** ** Output names, compared *)

Section OutputMore.

Context `{B : Builtins}.

(** The derived name, when [--output] is not used. *)
Lemma auto_output_filename_derived (infile : string) (inps : Namespace) :
  PyStr.truthy_opt (outfile inps) = false ∨ length (file inps) ≠ 1%nat →
  auto_output_filename infile inps =
    let name :=
      (if radar2geo inps then "geo_" else "rdr_") +:+
      match dset inps with
      | Some d => if PyStr.truthy d then d +:+ ".h5" else OsPath.basename infile
      | None => OsPath.basename infile
      end in
    match out_dir inps with
    | Some d => if PyStr.truthy d then OsPath.join d name else name
    | None => name
    end.
Proof.
  intros Hcase. unfold auto_output_filename. lazy zeta.
  assert (Hname :
    match dset inps with
    | Some d =>
        if PyStr.truthy d then (if radar2geo inps then "geo_" else "rdr_") +:+ d +:+ ".h5"
        else (if radar2geo inps then "geo_" else "rdr_") +:+ OsPath.basename infile
    | None => (if radar2geo inps then "geo_" else "rdr_") +:+ OsPath.basename infile
    end =
    (if radar2geo inps then "geo_" else "rdr_") +:+
    match dset inps with
    | Some d => if PyStr.truthy d then d +:+ ".h5" else OsPath.basename infile
    | None => OsPath.basename infile
    end).
  { destruct (dset inps) as [d|]; [|done]. by destruct (PyStr.truthy d). }
  rewrite Hname.
  destruct (outfile inps) as [o|]; [|done].
  destruct Hcase as [Ho | Hlen].
  - cbn in Ho. by rewrite Ho, andb_false_r.
  - by rewrite bool_decide_eq_false_2.
Qed.

Lemma join_inj (d name1 name2 : string) :
  PyStr.startswith_char "/" name1 = false →
  PyStr.startswith_char "/" name2 = false →
  OsPath.join d name1 = OsPath.join d name2 → name1 = name2.
Proof.
  intros H1 H2. unfold OsPath.join. rewrite H1, H2.
  destruct (negb (PyStr.truthy d) || PyStr.endswith_char "/" d).
  - apply (inj (String.app d)).
  - intros H. apply (inj (String.app d)) in H.
    by apply (inj (String.app "/")) in H.
Qed.

(** X12: when the names are derived, two input files get the same output
    name exactly when they have the same base name, whatever their
    directories; and with [--dset] every input file gets the same output
    name, so that in a run over several files each write replaces the
    previous one. *)
Theorem auto_output_filename_collisions (infile1 infile2 : string)
    (inps : Namespace) :
  PyStr.truthy_opt (outfile inps) = false ∨ length (file inps) ≠ 1%nat →
  (PyStr.truthy_opt (dset inps) = true →
     auto_output_filename infile1 inps = auto_output_filename infile2 inps)
  ∧ (PyStr.truthy_opt (dset inps) = false →
       (auto_output_filename infile1 inps = auto_output_filename infile2 inps
        ↔ OsPath.basename infile1 = OsPath.basename infile2)).
Proof.
  intros Hcase. rewrite !auto_output_filename_derived by done. lazy zeta.
  split.
  - intros Hd. destruct (dset inps) as [d|]; [|done]. cbn in Hd. by rewrite Hd.
  - intros Hd.
    assert (Hsame :
      ∀ infile, match dset inps with
                | Some d => if PyStr.truthy d then d +:+ ".h5"
                            else OsPath.basename infile
                | None => OsPath.basename infile
                end = OsPath.basename infile).
    { intros infile. destruct (dset inps) as [d|]; [|done].
      cbn in Hd. by rewrite Hd. }
    rewrite !Hsame. split; [|by intros ->].
    assert (Hslash : ∀ b, PyStr.startswith_char "/"
              ((if radar2geo inps then "geo_" else "rdr_") +:+ b) = false)
      by (intros b; by destruct (radar2geo inps)).
    intros Heq.
    assert (Hnames : (if radar2geo inps then "geo_" else "rdr_")
                       +:+ OsPath.basename infile1
                     = (if radar2geo inps then "geo_" else "rdr_")
                       +:+ OsPath.basename infile2).
    { destruct (out_dir inps) as [d|]; [|done].
      destruct (PyStr.truthy d); [|done].
      by eapply join_inj. }
    by apply (inj (String.app _)) in Hnames.
Qed.

End OutputMore.

(** ** The batch loop, file by file *)

Section BatchMore.

Context `{B : Builtins} `{C : @Collaborators B}.



(** The warnings of [metadata_radar2geo] are warnings. *)
Lemma metadata_radar2geo_warns w atr res_obj :
  (metadata_radar2geo w atr res_obj).2 = []
  ∨ (metadata_radar2geo w atr res_obj).2 = [EvWarn out_of_coverage].
Proof.
  unfold metadata_radar2geo.
  destruct (has_key _ _); [|by left].
  destruct (_ ≫= _) as [[y x]| |]; [|by left..].
  destruct (radar2glob _ _ _ _ _) as [ref_lat ref_lon].
  destruct (negb _ && negb _); [by left | by right].
Qed.

Lemma resample_datasets_trace w infile inps res_obj dsNames dict tr r tr' :
  resample_datasets w infile inps res_obj dsNames dict tr = (r, tr') →
  ∃ done_, tr' = tr ++ (EvResample infile <$> done_).
Proof.
  revert dict tr. induction dsNames as [|ds dsNames IH]; intros dict tr.
  - cbn. intros [= <- <-]. exists []. by rewrite app_nil_r.
  - cbn [resample_datasets].
    destruct (resample_data _ _ _) as [arr| |].
    + intros (done_ & ->)%IH. exists (ds :: done_). by rewrite <- app_assoc.
    + intros [= <- <-]. exists []. by rewrite app_nil_r.
    + intros [= <- <-]. exists []. by rewrite app_nil_r.
Qed.

Lemma resample_files_events inps res_obj files prev w tr r w' tr' :
  resample_files inps res_obj files prev w tr = (r, w', tr') →
  (∀ f, f ∈ files → f ∈ file inps) →
  (∀ out, prev = Some out →
          ∃ f, f ∈ file inps ∧ out = auto_output_filename f inps) →
  ∃ new,
    tr' = tr ++ new
    ∧ Forall (event_of_request inps) new
    ∧ (forallb (λ e, negb (is_write e)) new = true → w' = w)
    ∧ ∀ out, r = Return out →
             ∃ f, f ∈ file inps ∧ out = auto_output_filename f inps.
Proof.
  revert prev w tr. induction files as [|infile files IH]; intros prev w tr.
  - cbn. intros [= <- <- <-] _ Hprev. exists []. rewrite app_nil_r.
    split_and!; [done..|].
    intros out Hout. destruct prev as [o|]; [|done].
    apply Hprev. congruence.
  - intros Hrun Hfiles Hprev. cbn [resample_files] in Hrun.
    assert (Hin : infile ∈ file inps) by (apply Hfiles; rewrite elem_of_cons; tauto).
    destruct (updateMode inps && negb (update_file _ _ _)).
    { injection Hrun as <- <- <-. exists []. rewrite app_nil_r.
      split_and!; [done..|]. intros out [= <-]. eauto. }
    destruct (get_dataset_list w infile (dset inps)) as [|ds0 dsNames] eqn:Hds.
    { injection Hrun as <- <- <-. exists []. rewrite app_nil_r.
      split_and!; done. }
    destruct (resample_datasets w infile inps res_obj (ds0 :: dsNames) [] tr)
      as [rd tr1] eqn:Hrd.
    destruct (resample_datasets_trace _ _ _ _ _ _ _ _ _ Hrd) as (done_ & ->).
    assert (Hdone : Forall (event_of_request inps) (EvResample infile <$> done_))
      by (apply Forall_fmap, Forall_forall; intros ds _; exact Hin).
    assert (Hnowrite : ∀ l : list string,
              forallb (λ e, negb (is_write e)) (EvResample infile <$> l) = true)
      by (intros l; induction l; [done|by cbn]).
    destruct rd as [dsResDict| |];
      [|injection Hrun as <- <- <-; exists (EvResample infile <$> done_);
        split_and!; done..].
    set (meta := if radar2geo inps
                 then metadata_radar2geo w (read_attribute w infile (dset inps)) res_obj
                 else (Return (metadata_geo2radar
                                 (read_attribute w infile (dset inps)) res_obj), []))
      in Hrun.
    assert (Hwarns : meta.2 = [] ∨ meta.2 = [EvWarn out_of_coverage]).
    { subst meta. destruct (radar2geo inps); [|by left].
      apply metadata_radar2geo_warns. }
    destruct meta as [atr warns]. cbn [snd] in Hwarns.
    assert (Hwarn_ok : Forall (event_of_request inps) warns
                       ∧ forallb (λ e, negb (is_write e)) warns = true).
    { destruct Hwarns as [-> | ->]; split; try done.
      by apply Forall_singleton. }
    destruct Hwarn_ok as [Hw1 Hw2].
    destruct atr as [atr| |];
      [|injection Hrun as <- <- <-;
        exists ((EvResample infile <$> done_) ++ warns);
        rewrite app_assoc; split_and!;
        [done | by apply Forall_app | done | done]..].
    apply IH in Hrun as (new & -> & Hnew & _ & Hout).
    + eexists (((EvResample infile <$> done_) ++ warns)
               ++ [EvWrite _ _ _ _] ++ new).
      split_and!.
      * by rewrite <- !app_assoc.
      * rewrite !Forall_app, Forall_singleton. split_and!; try done.
        cbn. eauto.
      * rewrite !forallb_app. cbn [forallb is_write negb andb].
        by rewrite !andb_false_r.
      * done.
    + intros f Hf. apply Hfiles. rewrite elem_of_cons. tauto.
    + intros out [= <-]. eauto.
Qed.

(** X14: whatever [run_resample] does, every engine call is on one of the
    input files and every write goes to the output name derived from one of
    them; the path it returns is such a name; and if it made no write the
    disk is as it was. *)
Theorem run_resample_events w inps r w' tr :
  run_resample w inps = (r, w', tr) →
  Forall (event_of_request inps) tr
  ∧ (forallb (λ e, negb (is_write e)) tr = true → w' = w)
  ∧ ∀ out, r = Return out →
           ∃ infile, infile ∈ file inps
                     ∧ out = auto_output_filename infile inps.
Proof.
  unfold run_resample.
  destruct (file inps) as [|file_0 rest] eqn:Hfile.
  { intros [= <- <- <-]. split_and!; done. }
  lazy zeta. intros Hrun.
  apply (resample_files_events (set_nprocs (Some cpu_count) inps)) in Hrun
    as (new & Hnew & Hev & Hw & Hout).
  - cbn [app] in Hnew. subst new. change (file (set_nprocs (Some cpu_count) inps))
      with (file inps) in *.
    rewrite Hfile in *. split_and!; [|done|].
    + eapply Forall_impl; [exact Hev|]. intros [| |] He; try done.
    + intros out Hr. destruct (Hout out Hr) as (f & Hf & ->). eauto.
  - done.
  - done.
Qed.

(** X15: a file that is not skipped and has no dataset makes
    [run_resample] raise [ValueError] (the maximum of an empty list) before
    any engine call or write. *)
Theorem run_resample_no_dataset w inps infile rest :
  file inps = infile :: rest →
  updateMode inps = false
  ∨ update_file w (auto_output_filename infile inps)
      [Some infile; lookupFile inps] = true →
  get_dataset_list w infile (dset inps) = [] →
  run_resample w inps = (Raise ValueError, w, []).
Proof.
  intros Hfile Hskip Hds. unfold run_resample. rewrite Hfile. lazy zeta.
  set (inps' := set_nprocs (Some cpu_count) inps).
  change (file inps') with (file inps). rewrite Hfile.
  cbn [resample_files].
  change (auto_output_filename infile inps')
    with (auto_output_filename infile inps).
  change (updateMode inps') with (updateMode inps).
  change (lookupFile inps') with (lookupFile inps).
  change (dset inps') with (dset inps).
  rewrite Hds.
  by destruct Hskip as [-> | ->]; rewrite ?andb_false_r.
Qed.


End BatchMore.

(** ** Runs of the further properties *)

Lemma metadata_radar2geo_out_of_coverage_witness :
  ∃ atr',
    metadata_radar2geo Demo.disk_no_coverage Demo.velocity_atr Demo.res
      = (Return atr', [EvWarn out_of_coverage])
    ∧ atr' !! "REF_Y" = None ∧ atr' !! "REF_X" = None
    ∧ atr' !! "REF_LAT" = None
    ∧ (atr' !! "REF_LON" = None
       ↔ is_Some (Demo.velocity_atr !! "REF_LAT")
         ∨ Demo.velocity_atr !! "REF_LON" = None).
Proof.
  apply (metadata_radar2geo_out_of_coverage (C := Disk.collaborators)
           Demo.disk_no_coverage Demo.velocity_atr Demo.res
           (PStr "10") (PStr "20") 10 20); reflexivity.
Defined.

Lemma metadata_radar2geo_unreadable_ref_witness :
  metadata_radar2geo Demo.disk Demo2.ref_y_only Demo.res
    = (Raise (KeyError "REF_X"), [])
  ∧ metadata_radar2geo Demo.disk Demo2.ref_y_bad Demo.res
    = (Raise ValueError, []).
Proof.
  split.
  - apply (proj1 (proj2 (metadata_radar2geo_unreadable_ref
             (C := Disk.collaborators) Demo.disk Demo2.ref_y_only Demo.res
             (PStr "10") eq_refl)) 10); reflexivity.
  - apply (proj1 (metadata_radar2geo_unreadable_ref
             (C := Disk.collaborators) Demo.disk Demo2.ref_y_bad Demo.res
             (PStr "ten") eq_refl)). reflexivity.
Defined.

Lemma metadata_geo2radar_after_radar2geo_witness :
  metadata_radar2geo Demo.disk Demo.velocity_atr Demo.res
    = (Return Demo.relocated, [])
  ∧ metadata_geo2radar Demo.relocated Demo.res
    = metadata_geo2radar Demo.velocity_atr Demo.res.
Proof.
  split; [reflexivity|].
  exact (metadata_geo2radar_after_radar2geo (C := Disk.collaborators)
           Demo.disk Demo.velocity_atr Demo.res Demo.relocated [] Demo.res
           eq_refl).
Defined.

Lemma check_inps_no_input_file_witness :
  _check_inps Demo.disk (Demo.cli ["missing.h5"])
    = Raise (Exception "ERROR: no input file found!")
  ∧ main Demo.disk (Demo.cli ["missing.h5"])
    = (Raise (Exception "ERROR: no input file found!"), Demo.disk, []).
Proof.
  destruct (check_inps_no_input_file (C := Disk.collaborators) Demo.disk
              (Demo.cli ["missing.h5"]) eq_refl) as (Hcheck & Hmain & _).
  split; [exact Hcheck | exact (Hmain eq_refl)].
Defined.

Lemma check_inps_request_witness :
  ∃ inps',
    _check_inps Demo.disk Demo2.cli_output = Return inps'
    ∧ file inps' = ["velocity.h5"; "timeseries.h5"]
    ∧ lookupFile inps' = Some "geometryRadar.h5"
    ∧ outfile inps' = None.
Proof.
  eexists. split; [reflexivity|].
  destruct (check_inps_request (C := Disk.collaborators) Demo.disk
              Demo2.cli_output _ eq_refl) as (H1 & _ & H3 & _ & H5 & _).
  split; [exact H1|]. split; [exact H3 | exact H5].
Defined.

Lemma read_template2inps_other_options_witness :
  ∃ inps',
    read_template2inps Demo2.disk_template_more "more_template.txt"
      Demo.cli_template = Return inps'
    ∧ file inps' = ["velocity.h5"]
    ∧ updateMode inps' = false
    ∧ outfile inps' = None.
Proof.
  eexists. split; [reflexivity|].
  destruct (read_template2inps_other_options (C := Disk.collaborators)
              Demo2.disk_template_more "more_template.txt" Demo.cli_template
              _ eq_refl) as (H1 & _ & _ & _ & _ & H6 & H7 & _).
  split; [exact H1|]. split; [exact H6 | exact H7].
Defined.

Lemma read_template2inps_returns_witness :
  returns (read_template2inps Demo.disk "pysarApp_template.txt"
             Demo.cli_template) = true.
Proof.
  apply (read_template2inps_returns (C := Disk.collaborators) Demo.disk
           "pysarApp_template.txt" Demo.cli_template).
  - intros v Hv. discriminate Hv.
  - intros v Hv. injection Hv as <-. reflexivity.
  - intros v Hv. discriminate Hv.
  - intros v Hv. discriminate Hv.
Defined.

Lemma read_template2inps_idempotent_witness :
  ∃ inps',
    read_template2inps Demo.disk "pysarApp_template.txt" Demo.cli_template
      = Return inps'
    ∧ read_template2inps Demo.disk "pysarApp_template.txt" inps'
      = Return inps'.
Proof.
  eexists. split; [reflexivity|].
  apply (read_template2inps_idempotent (C := Disk.collaborators) Demo.disk
           "pysarApp_template.txt" Demo.cli_template).
  reflexivity.
Defined.

Lemma transformed_metadata_direction_witness :
  _check_inps Demo.disk (Demo.cli ["geo_velocity.h5"]) = SysExit 0
  ∧ _check_inps Demo.disk (Demo.cli_geo2radar ["velocity.h5"]) = SysExit 0.
Proof.
  split.
  - apply (proj1 (transformed_metadata_direction (C := Disk.collaborators)
             Demo.disk (Demo.cli ["geo_velocity.h5"]) "geo_velocity.h5" []
             eq_refl) Demo.disk Demo.velocity_atr Demo.res Demo.relocated []);
      reflexivity.
  - apply (proj2 (transformed_metadata_direction (C := Disk.collaborators)
             Demo.disk (Demo.cli_geo2radar ["velocity.h5"]) "velocity.h5" []
             eq_refl) Demo.geo_velocity_atr Demo.res);
      reflexivity.
Defined.

Lemma auto_output_filename_collisions_witness :
  auto_output_filename "a/velocity.h5" Demo2.cli_two
    = auto_output_filename "b/velocity.h5" Demo2.cli_two
  ∧ auto_output_filename "velocity.h5" Demo2.cli_dset
    = auto_output_filename "timeseries.h5" Demo2.cli_dset.
Proof.
  split.
  - apply (proj2 (auto_output_filename_collisions "a/velocity.h5"
                    "b/velocity.h5" Demo2.cli_two (or_introl eq_refl)));
      reflexivity.
  - apply (proj1 (auto_output_filename_collisions "velocity.h5"
                    "timeseries.h5" Demo2.cli_dset (or_introl eq_refl)));
      reflexivity.
Defined.


Lemma run_resample_events_witness :
  ∃ r w' tr,
    run_resample Demo.disk
      (set_file ["timeseries.h5"; "velocity.h5"] Demo.checked_update)
      = (r, w', tr)
    ∧ Forall (event_of_request
                (set_file ["timeseries.h5"; "velocity.h5"] Demo.checked_update))
        tr
    ∧ r = Return "geo_velocity.h5".
Proof.
  destruct (run_resample (C := Disk.collaborators) Demo.disk
              (set_file ["timeseries.h5"; "velocity.h5"] Demo.checked_update))
    as [[r w'] tr] eqn:Hrun.
  exists r, w', tr. split; [reflexivity|].
  destruct (run_resample_events (C := Disk.collaborators) Demo.disk
              (set_file ["timeseries.h5"; "velocity.h5"] Demo.checked_update)
              r w' tr Hrun) as (Hev & _ & _).
  split; [exact Hev|].
  transitivity
    (run_resample (C := Disk.collaborators) Demo.disk
       (set_file ["timeseries.h5"; "velocity.h5"] Demo.checked_update)).1.1;
    [by rewrite Hrun | reflexivity].
Defined.

Lemma run_resample_no_dataset_witness :
  run_resample Demo2.disk_empty_file Demo2.checked_empty
    = (Raise ValueError, Demo2.disk_empty_file, []).
Proof.
  apply (run_resample_no_dataset (C := Disk.collaborators)
           Demo2.disk_empty_file Demo2.checked_empty "empty.h5" []);
    [reflexivity | left; reflexivity | reflexivity].
Defined.

